(** * Trade Pilot X: the multi-factor scoring engine

    A shallow embedding of [src/api/core/scoring_engine.py] (class
    [ScoringEngine]) and the properties of its scoring functions.

    Python values are embedded as the inductive [pyval]; dictionaries are
    finite maps with string keys; floats are IEEE 754 binary64 numbers (the
    [spec_float] of the standard library, with its correctly rounded
    operations); exceptions are explicit in the [result] monad; the
    clock and the limits of the interpreter on [str] are arguments. *)

From Stdlib Require Import ZArith QArith Qabs String Ascii SpecFloat.
From stdpp Require Import gmap strings list fin_maps sorting.

Set Warnings "-register-all".
#[local] Open Scope Z_scope.

(** ** Python values *)

Inductive pyval :=
  | PNone
  | PBool (b : bool)
  | PInt (z : Z)
  | PFloat (f : spec_float)
  | PStr (s : string)
  | PList (l : list pyval)
  | PDict (d : gmap string pyval).

(** A Python [dict] with string keys. *)
Abbreviation dict := (gmap string pyval).

(** [type(v).__name__], as it appears in the interpreter's error messages. *)
Definition type_name (v : pyval) : string :=
  match v with
  | PNone => "NoneType"
  | PBool _ => "bool"
  | PInt _ => "int"
  | PFloat _ => "float"
  | PStr _ => "str"
  | PList _ => "list"
  | PDict _ => "dict"
  end.

(** ** Exceptions *)

Inductive exn :=
  | AttributeError (msg : string)
  | TypeError (msg : string)
  | KeyError (msg : string)
  | ValueError (msg : string)
  | OverflowError (msg : string)
  | RecursionError (msg : string).

(** [str(e)] *)
Definition exn_str (e : exn) : string :=
  match e with
  | AttributeError m | TypeError m | KeyError m | ValueError m
  | OverflowError m | RecursionError m => m
  end.

Inductive result (A : Type) :=
  | Ok (a : A)
  | Raise (e : exn).
Arguments Ok {A} a.
Arguments Raise {A} e.

Definition bind {A B} (m : result A) (f : A → result B) : result B :=
  match m with
  | Ok a => f a
  | Raise e => Raise e
  end.

Notation "x <- m ; k" := (bind m (λ x, k))
  (at level 20, m at level 100, k at level 200, only parsing).

(** [try: body  except Exception as e: handler(e)] *)
Definition try_except {A} (body : result A) (handler : exn → result A)
  : result A :=
  match body with
  | Ok a => Ok a
  | Raise e => handler e
  end.

(** ** Attribute access and strings *)

Definition no_attribute (v : pyval) (attr : string) : exn :=
  AttributeError
    ("'" +:+ type_name v +:+ "' object has no attribute '" +:+ attr +:+ "'").

(** [d.get(key, default)] on a dictionary *)
Definition dict_get (d : dict) (key : string) (dflt : pyval) : pyval :=
  default dflt (d !! key).

(** [v.get(key, default)] on an arbitrary value: only [dict] has [get]. *)
Definition py_get (v : pyval) (key : string) (dflt : pyval) : result pyval :=
  match v with
  | PDict d => Ok (dict_get d key dflt)
  | _ => Raise (no_attribute v "get")
  end.

(** [str.lower] on one character. A string is its sequence of bytes; the
    letters A-Z are mapped to a-z and every other byte is kept. The
    engine only compares the lowered string with the ASCII words
    bullish, bearish, neutral and high. *)
Definition lower_char (c : ascii) : ascii :=
  let n := nat_of_ascii c in
  if ((65 <=? n)%nat && (n <=? 90)%nat)%bool then ascii_of_nat (n + 32) else c.

Fixpoint lower (s : string) : string :=
  match s with
  | EmptyString => EmptyString
  | String c s' => String (lower_char c) (lower s')
  end.

(** [v.lower()]: only [str] has [lower]. *)
Definition py_lower (v : pyval) : result string :=
  match v with
  | PStr s => Ok (lower s)
  | _ => Raise (no_attribute v "lower")
  end.

(** ** Numbers *)

(** Binary64 arithmetic. *)
Definition b64_add : spec_float → spec_float → spec_float := SFadd 53 1024.
Definition b64_sub : spec_float → spec_float → spec_float := SFsub 53 1024.
Definition b64_mul : spec_float → spec_float → spec_float := SFmul 53 1024.

(** [float(z)] for an integer (round to nearest, ties to even). *)
Definition b64_of_Z (z : Z) : spec_float := binary_normalize 53 1024 z 0 false.

(** The literals of the source. *)
Definition f_0_25 : spec_float := S754_finite false 4503599627370496 (-54).
Definition f_0_8 : spec_float := S754_finite false 7205759403792794 (-53).
Definition f_0_5 : spec_float := S754_finite false 4503599627370496 (-53).
Definition f_1_0 : spec_float := S754_finite false 4503599627370496 (-52).
Definition f_1_01 : spec_float := S754_finite false 4548635623644201 (-52).

(** A number held in a local variable: [int] or [float]. *)
Inductive num :=
  | NInt (z : Z)
  | NFloat (f : spec_float).

Definition num_float (a : num) : spec_float :=
  match a with
  | NInt z => b64_of_Z z
  | NFloat f => f
  end.

(** [a + b], [a - b], [a * b]: integer arithmetic on two ints, binary64
    arithmetic as soon as one operand is a float. *)
Definition num_add (a b : num) : num :=
  match a, b with
  | NInt x, NInt y => NInt (x + y)
  | _, _ => NFloat (b64_add (num_float a) (num_float b))
  end.

Definition num_sub (a b : num) : num :=
  match a, b with
  | NInt x, NInt y => NInt (x - y)
  | _, _ => NFloat (b64_sub (num_float a) (num_float b))
  end.

Definition num_mul (a b : num) : num :=
  match a, b with
  | NInt x, NInt y => NInt (x * y)
  | _, _ => NFloat (b64_mul (num_float a) (num_float b))
  end.

(** Rounding of the fraction [n / d] ([d > 0]) to the nearest integer, a
    tie going to the even neighbour. *)
Definition round_half_even_frac (n : Z) (d : Z) : Z :=
  let q := n / d in
  let r := n mod d in
  match 2 * r ?= d with
  | Lt => q
  | Gt => q + 1
  | Eq => if Z.even q then q else q + 1
  end.

(** [round(x)] with one argument: an int is returned as it is, a float is
    rounded half to even to an int; NaN and the infinities raise. *)
Definition py_round (x : num) : result Z :=
  match x with
  | NInt z => Ok z
  | NFloat (S754_zero _) => Ok 0
  | NFloat (S754_finite s m e) =>
      let a := match e with
               | Z0 => Zpos m
               | Zpos p => Zpos m * 2 ^ Zpos p
               | Zneg p => round_half_even_frac (Zpos m) (2 ^ Zpos p)
               end in
      Ok (if s then - a else a)
  | NFloat S754_nan => Raise (ValueError "cannot convert float NaN to integer")
  | NFloat (S754_infinity _) =>
      Raise (OverflowError "cannot convert float infinity to integer")
  end.

(** The exact value of a number: comparisons between ints and floats are
    made on the exact values, NaN being unordered. *)
Inductive xreal :=
  | XNaN
  | XInf (neg : bool)
  | XFin (q : Q).

(** [m * 2^e] *)
Definition dyadic (m : Z) (e : Z) : Q :=
  match e with
  | Z0 => inject_Z m
  | Zpos p => inject_Z (m * 2 ^ Zpos p)
  | Zneg p => Qmake m (2 ^ p)%positive
  end.

Definition float_value (f : spec_float) : xreal :=
  match f with
  | S754_zero _ => XFin 0
  | S754_infinity s => XInf s
  | S754_nan => XNaN
  | S754_finite s m e => XFin (dyadic (if s then Zneg m else Zpos m) e)
  end.

Definition num_value (a : num) : xreal :=
  match a with
  | NInt z => XFin (inject_Z z)
  | NFloat f => float_value f
  end.

Definition xcompare (a b : xreal) : option comparison :=
  match a, b with
  | XNaN, _ | _, XNaN => None
  | XInf s1, XInf s2 =>
      Some (match s1, s2 with
            | true, false => Lt
            | false, true => Gt
            | _, _ => Eq
            end)
  | XInf s, XFin _ => Some (if s then Lt else Gt)
  | XFin _, XInf s => Some (if s then Gt else Lt)
  | XFin p, XFin q => Some (Qcompare p q)
  end.

(** The numeric reading of a value: [bool] is a subclass of [int]. *)
Definition as_num (v : pyval) : option num :=
  match v with
  | PBool b => Some (NInt (Z.b2z b))
  | PInt z => Some (NInt z)
  | PFloat f => Some (NFloat f)
  | _ => None
  end.

Definition not_supported (op : string) (v : pyval) (c : num) : exn :=
  TypeError
    ("'" +:+ op +:+ "' not supported between instances of '" +:+ type_name v
     +:+ "' and '" +:+ (match c with NInt _ => "int" | NFloat _ => "float" end)
     +:+ "'").

(** [v > c] and [v < c] against a numeric literal [c]. *)
Definition py_gt (v : pyval) (c : num) : result bool :=
  match as_num v with
  | Some a =>
      Ok (match xcompare (num_value a) (num_value c) with
          | Some Gt => true
          | _ => false
          end)
  | None => Raise (not_supported ">" v c)
  end.

Definition py_lt (v : pyval) (c : num) : result bool :=
  match as_num v with
  | Some a =>
      Ok (match xcompare (num_value a) (num_value c) with
          | Some Lt => true
          | _ => false
          end)
  | None => Raise (not_supported "<" v c)
  end.

(** [v == c] against a numeric literal: never raises, a value that is not
    a number is simply different. *)
Definition py_eq (v : pyval) (c : num) : bool :=
  match as_num v with
  | Some a =>
      match xcompare (num_value a) (num_value c) with
      | Some Eq => true
      | _ => false
      end
  | None => false
  end.

(** [v is True], [v is False], [v is None] *)
Definition is_True (v : pyval) : bool :=
  match v with PBool true => true | _ => false end.
Definition is_False (v : pyval) : bool :=
  match v with PBool false => true | _ => false end.
Definition is_None (v : pyval) : bool :=
  match v with PNone => true | _ => false end.

(** ** Formatting

    Whether [str] raises on a value depends on limits of the interpreter:
    an int of more digits than the limit of the int to string conversion
    raises [ValueError], a list or dict nested deeper than the recursion
    limit raises [RecursionError]. [str_raises] is what the interpreter at
    hand raises on a value, [None] when it returns a string. *)
Record interpreter := { str_raises : pyval → option exn }.

(** The evaluation of [f"{v}"]. [None], a bool, a float and a string
    are formatted in every interpreter; an int, a list and a dict are
    formatted unless the interpreter raises on them. The string itself
    only goes to the log and is left out. *)
Definition format_value (py : interpreter) (v : pyval) : result unit :=
  match v with
  | PNone | PBool _ | PFloat _ | PStr _ => Ok tt
  | PInt _ | PList _ | PDict _ =>
      match str_raises py v with
      | Some e => Raise e
      | None => Ok tt
      end
  end.

(** ** The scoring functions *)

(** The body of the loop over [sma_scores.items()]. *)
Definition sma_step (score : num) (item : string * pyval) : num :=
  let above := item.2 in
  if is_True above then num_add score (NFloat f_0_25)
  else if is_False above then num_sub score (NFloat f_0_25)
  else score.

Definition _calculate_technical_score (technical : pyval) : result Z :=
  let score := NInt 0 in
  trend_v <- py_get technical "trend" (PStr "neutral");
  trend <- py_lower trend_v;
  let score :=
    if String.eqb trend "bullish" then num_add score (NInt 2)
    else if String.eqb trend "bearish" then num_sub score (NInt 2)
    else if String.eqb trend "neutral" then num_add score (NInt 0)
    else score in
  a20 <- py_get technical "above_20_sma" PNone;
  a50 <- py_get technical "above_50_sma" PNone;
  a100 <- py_get technical "above_100_sma" PNone;
  a200 <- py_get technical "above_200_sma" PNone;
  let sma_scores :=
    [("20_day_sma", a20); ("50_day_sma", a50);
     ("100_day_sma", a100); ("200_day_sma", a200)] in
  let score := fold_left sma_step sma_scores score in
  volatility_v <- py_get technical "volatility" (PStr "normal");
  volatility <- py_lower volatility_v;
  let score :=
    if String.eqb volatility "high" then num_mul score (NFloat f_0_8)
    else score in
  rounded <- py_round score;
  Ok (Z.max (-3) (Z.min 3 rounded)).

Definition _calculate_sentiment_score (cot retail : pyval) : result Z :=
  let score := 0 in
  positioning_v <- py_get cot "positioning" (PStr "neutral");
  cot_positioning <- py_lower positioning_v;
  let score :=
    if String.eqb cot_positioning "bullish" then score + 1
    else if String.eqb cot_positioning "bearish" then score - 1
    else score in
  cot_change <- py_get cot "weekly_change" (PInt 0);
  buying <- py_gt cot_change (NInt 2);
  score <-
    (if buying then Ok (score + 1)
     else
       selling <- py_lt cot_change (NInt (-2));
       Ok (if selling then score - 1 else score));
  retail_long_pct <- py_get retail "long_pct" (PInt 50);
  crowded_long <- py_gt retail_long_pct (NInt 60);
  score <-
    (if crowded_long then Ok (score - 1)
     else
       crowded_short <- py_lt retail_long_pct (NInt 40);
       Ok (if crowded_short then score + 1 else score));
  Ok (Z.max (-2) (Z.min 2 score)).

(** The keys read from [economic], in the order of the [metrics] literal,
    each with the name it is given there. *)
Definition eco_metrics : list (string * string) :=
  [("gdp", "gdp_surprise");
   ("manufacturing_pmi", "mPMI_surprise");
   ("services_pmi", "sPMI_surprise");
   ("retail_sales", "retail_surprise");
   ("cpi", "cpi_surprise");
   ("ppi", "ppi_surprise");
   ("pce", "pce_surprise");
   ("interest_rates", "rate_surprise");
   ("consumer_confidence", "confidence_surprise");
   ("nfp", "nfp_surprise");
   ("unemployment", "unemployment_surprise");
   ("jobless_claims", "claims_surprise");
   ("adp", "adp_surprise");
   ("jolts", "jolts_surprise")].

(** The [metrics] literal: one [economic.get(key, 0)] per entry. *)
Fixpoint build_metrics (economic : pyval) (keys : list (string * string))
  : result (list (string * pyval)) :=
  match keys with
  | [] => Ok []
  | (metric, key) :: rest =>
      surprise <- py_get economic key (PInt 0);
      tail <- build_metrics economic rest;
      Ok ((metric, surprise) :: tail)
  end.

(** The body of the loop over [metrics.items()]. *)
Definition eco_step (score : Z) (item : string * pyval) : result Z :=
  let surprise := item.2 in
  if (is_None surprise || py_eq surprise (NInt 0))%bool then Ok score
  else
    beat <- py_gt surprise (NInt 0);
    if beat then Ok (score + 1)
    else
      miss <- py_lt surprise (NInt 0);
      Ok (if miss then score - 1 else score).

(** [for item in items: score = step(score, item)], stopping at the first
    exception. *)
Fixpoint for_each {A B} (step : A → B → result A) (items : list B) (acc : A)
  : result A :=
  match items with
  | [] => Ok acc
  | item :: rest => acc' <- step acc item; for_each step rest acc'
  end.

Definition _calculate_eco_score (economic : pyval) : result Z :=
  let score := 0 in
  metrics <- build_metrics economic eco_metrics;
  score <- for_each eco_step metrics score;
  Ok (Z.max (-5) (Z.min 5 score)).

Definition _calculate_seasonality_score (seasonality : pyval) : result Z :=
  current_month_avg <- py_get seasonality "current_month_avg_return" (PInt 0);
  c1 <- py_gt current_month_avg (NFloat f_1_0);
  if c1 then Ok 2
  else
    c2 <- py_gt current_month_avg (NFloat f_0_5);
    if c2 then Ok 1
    else
      c3 <- py_lt current_month_avg (NFloat (SFopp f_1_0));
      if c3 then Ok (-2)
      else
        c4 <- py_lt current_month_avg (NFloat (SFopp f_0_5));
        if c4 then Ok (-1) else Ok 0.

Definition _determine_bias (total_score : Z) : string :=
  if total_score >=? 8 then "Very Bullish"
  else if total_score >=? 5 then "Bullish"
  else if total_score >=? 3 then "Bullish"
  else if total_score >? 0 then "Neutral"
  else if total_score =? 0 then "Neutral"
  else if total_score >? -3 then "Neutral"
  else if total_score >? -5 then "Bearish"
  else if total_score >? -8 then "Bearish"
  else "Very Bearish".

(** The four sub-scores, in the order the [try] block computes them. *)
Definition sub_scores (asset_data : dict) : result (Z * Z * Z * Z) :=
  technical_score <-
    _calculate_technical_score (dict_get asset_data "technical" (PDict ∅));
  sentiment_score <-
    _calculate_sentiment_score (dict_get asset_data "cot" (PDict ∅))
                               (dict_get asset_data "retail" (PDict ∅));
  eco_score <- _calculate_eco_score (dict_get asset_data "economic" (PDict ∅));
  seasonality_bonus <-
    _calculate_seasonality_score (dict_get asset_data "seasonality" (PDict ∅));
  Ok (technical_score, sentiment_score, eco_score, seasonality_bonus).

(** The report returned from the [try] block. [now] is the string that
    [datetime.now().isoformat()] returns during the call. *)
Definition score_report (now : string) (symbol : pyval) (asset_data : dict)
    (scores : Z * Z * Z * Z) : dict :=
  let '(technical_score, sentiment_score, eco_score, seasonality_bonus) :=
    scores in
  let total_score :=
    technical_score + sentiment_score + eco_score + seasonality_bonus in
  let bias := _determine_bias total_score in
  <["symbol" := symbol]>
  (<["total_score" := PInt total_score]>
  (<["technical_score" := PInt technical_score]>
  (<["sentiment_score" := PInt sentiment_score]>
  (<["eco_score" := PInt eco_score]>
  (<["seasonality_score" := PInt seasonality_bonus]>
  (<["bias" := PStr bias]>
  (<["timestamp" := PStr now]>
  (<["breakdown" := PDict
      (<["technical" := dict_get asset_data "technical" (PDict ∅)]>
      (<["cot" := dict_get asset_data "cot" (PDict ∅)]>
      (<["retail" := dict_get asset_data "retail" (PDict ∅)]>
      (<["economic" := dict_get asset_data "economic" (PDict ∅)]> ∅))))]>
   ∅)))))))).

(** The report returned from the [except] block. *)
Definition fallback_report (symbol : pyval) (e : exn) : dict :=
  <["symbol" := symbol]>
  (<["total_score" := PInt 0]>
  (<["technical_score" := PInt 0]>
  (<["sentiment_score" := PInt 0]>
  (<["eco_score" := PInt 0]>
  (<["bias" := PStr "Neutral"]>
  (<["error" := PStr (exn_str e)]> ∅)))))).

(** [asset_data] is a [Dict[str, Any]], so the lookup of the symbol in
    front of the [try] block cannot raise. The [except] block first
    evaluates the message [f"Error scoring {symbol}: {e}"] for the log,
    which raises when the symbol cannot be formatted ([str(e)] is the
    message of the exception and is always formatted); the write to the
    log itself has no part in the result. *)
Definition calculate_asset_score (py : interpreter) (now : string)
    (asset_data : dict) : result dict :=
  let symbol := dict_get asset_data "symbol" (PStr "UNKNOWN") in
  try_except
    (scores <- sub_scores asset_data;
     Ok (score_report now symbol asset_data scores))
    (λ e,
       logged <- format_value py symbol;
       Ok (fallback_report symbol e)).

(** ** Ranking *)

(** The sort key [lambda x: x["total_score"]]. The reports of the engine
    always hold an int there; a key of another type is reported as a
    [TypeError]. *)
Definition total_score_key (x : dict) : result Z :=
  match x !! "total_score" with
  | Some (PInt z) => Ok z
  | Some v =>
      Raise (TypeError ("unexpected sort key of type '" +:+ type_name v +:+ "'"))
  | None => Raise (KeyError "'total_score'")
  end.

(** The keys are computed once, before any comparison. *)
Fixpoint decorate (items : list dict) : result (list (Z * dict)) :=
  match items with
  | [] => Ok []
  | x :: rest =>
      k <- total_score_key x;
      tail <- decorate rest;
      Ok ((k, x) :: tail)
  end.

(** A stable ascending sort that, like the library's, compares keys with
    [<] only: an element is inserted in front of the first element whose
    key is not smaller than its own. *)
Fixpoint insert_by_key (x : Z * dict) (l : list (Z * dict))
  : list (Z * dict) :=
  match l with
  | [] => [x]
  | y :: l' => if y.1 <? x.1 then y :: insert_by_key x l' else x :: y :: l'
  end.

Definition stable_sort (l : list (Z * dict)) : list (Z * dict) :=
  foldr insert_by_key [] l.

(** [items.sort(key=lambda x: x["total_score"], reverse=True)]: the list
    is reversed, sorted stably in ascending order, and reversed again. *)
Definition sort_by_total_score_reverse (items : list dict)
  : result (list dict) :=
  decorated <- decorate items;
  Ok (reverse (stable_sort (reverse decorated))).*2.

(** The loop of [rank_assets]; [clock k] is the time read while the
    asset at position [k] is scored. *)
Fixpoint score_loop (py : interpreter) (clock : nat → string) (k : nat)
    (assets : list dict) (scored_assets : list dict) : result (list dict) :=
  match assets with
  | [] => Ok scored_assets
  | asset_data :: rest =>
      score_result <- calculate_asset_score py (clock k) asset_data;
      score_loop py clock (S k) rest (scored_assets ++ [score_result])
  end.

Definition rank_assets (py : interpreter) (clock : nat → string)
    (assets : list dict) : result (list dict) :=
  scored_assets <- score_loop py clock 0 assets [];
  sort_by_total_score_reverse scored_assets.

(** ** The specification's reading of the scores

    The definitions below follow the words of the specification; they
    are compared with the functions above. *)

Definition clamp (lo hi x : Z) : Z := Z.max lo (Z.min hi x).

(** The real value of a finite number ([None] for NaN, the infinities
    and values that are not numbers). *)
Definition py_real (v : pyval) : option Q :=
  match as_num v with
  | Some a => match num_value a with XFin q => Some q | _ => None end
  | None => None
  end.

Definition Qgtb (x y : Q) : bool :=
  match (x ?= y)%Q with Gt => true | _ => false end.
Definition Qltb (x y : Q) : bool :=
  match (x ?= y)%Q with Lt => true | _ => false end.

(** Rounding of a rational to the nearest integer, ties to even. *)
Definition round_half_even (x : Q) : Z :=
  round_half_even_frac (Qnum x) (Zpos (Qden x)).

(** *** Technical score *)

Definition trend_contribution (trend : string) : Q :=
  if String.eqb (lower trend) "bullish" then 2%Q
  else if String.eqb (lower trend) "bearish" then (-2)%Q
  else 0%Q.

Definition sma_contribution (above : option pyval) : Q :=
  match above with
  | Some (PBool true) => (1 # 4)%Q
  | Some (PBool false) => (- (1 # 4))%Q
  | _ => 0%Q
  end.

Definition sma_keys : list string :=
  ["above_20_sma"; "above_50_sma"; "above_100_sma"; "above_200_sma"].

Definition Qsum (l : list Q) : Q := foldr Qplus 0%Q l.

Definition technical_running_sum (technical : dict) (trend : string) : Q :=
  (trend_contribution trend
   + Qsum ((λ key, sma_contribution (technical !! key)) <$> sma_keys))%Q.

Definition damped (volatility : string) (x : Q) : Q :=
  if String.eqb (lower volatility) "high" then (x * (8 # 10))%Q else x.

Definition technical_spec (technical : dict) (trend volatility : string) : Z :=
  clamp (-3) 3
    (round_half_even (damped volatility (technical_running_sum technical trend))).

(** *** Sentiment score *)

Definition positioning_vote (positioning : string) : Z :=
  if String.eqb (lower positioning) "bullish" then 1
  else if String.eqb (lower positioning) "bearish" then -1
  else 0.

Definition weekly_change_vote (change : Q) : Z :=
  if Qgtb change 2%Q then 1 else if Qltb change (-2)%Q then -1 else 0.

Definition retail_vote (long_pct : Q) : Z :=
  if Qgtb long_pct 60%Q then -1 else if Qltb long_pct 40%Q then 1 else 0.

Definition sentiment_spec (positioning : string) (change long_pct : Q) : Z :=
  clamp (-2) 2
    (positioning_vote positioning + weekly_change_vote change
     + retail_vote long_pct).

(** *** Economic score *)

Definition xsign (x : xreal) : Z :=
  match x with
  | XNaN => 0
  | XInf neg => if neg then -1 else 1
  | XFin q => match (q ?= 0)%Q with Gt => 1 | Lt => -1 | Eq => 0 end
  end.

(** +1 for a strictly positive surprise, -1 for a strictly negative one,
    nothing for a metric that is absent, null or zero. *)
Definition surprise_vote (surprise : option pyval) : Z :=
  match surprise with
  | Some v => match as_num v with Some a => xsign (num_value a) | None => 0 end
  | None => 0
  end.

Definition Zsum (l : list Z) : Z := foldr Z.add 0 l.

Definition eco_votes (economic : dict) : list Z :=
  (λ item : string * string, surprise_vote (economic !! item.2)) <$> eco_metrics.

Definition eco_spec (economic : dict) : Z := clamp (-5) 5 (Zsum (eco_votes economic)).

Definition count_votes (vote : Z) (votes : list Z) : Z :=
  Z.of_nat (length (filter (λ v, v = vote) votes)).

(** *** Seasonality score *)

Definition seasonality_step (x : Q) : Z :=
  if Qgtb x 1%Q then 2
  else if Qgtb x (1 # 2)%Q then 1
  else if Qltb x (-1)%Q then -2
  else if Qltb x (- (1 # 2))%Q then -1
  else 0.

(** *** Bias label *)

Definition bias_ladder (total : Z) : string :=
  if total >=? 8 then "Very Bullish"
  else if total >=? 3 then "Bullish"
  else if total >? 0 then "Neutral"
  else if total =? 0 then "Neutral"
  else if total >? -3 then "Neutral"
  else if total >? -5 then "Bearish"
  else if total >? -8 then "Bearish"
  else "Very Bearish".

(** *** Well-typed observations *)

Definition str_or_absent (o : option pyval) : bool :=
  match o with
  | None | Some (PStr _) => true
  | _ => false
  end.

Definition num_or_absent (o : option pyval) : bool :=
  match o with
  | None => true
  | Some v => bool_decide (is_Some (as_num v))
  end.

Definition surprise_ok (o : option pyval) : bool :=
  match o with
  | Some PNone => true
  | _ => num_or_absent o
  end.

(** The mapping under [key], the empty mapping when the key is absent. *)
Definition sub_dict (asset_data : dict) (key : string) : option dict :=
  match asset_data !! key with
  | None => Some ∅
  | Some (PDict d) => Some d
  | Some _ => None
  end.

Definition valid_technical (t : dict) : bool :=
  str_or_absent (t !! "trend") && str_or_absent (t !! "volatility").
Definition valid_cot (c : dict) : bool :=
  str_or_absent (c !! "positioning") && num_or_absent (c !! "weekly_change").
Definition valid_retail (r : dict) : bool := num_or_absent (r !! "long_pct").
Definition valid_economic (e : dict) : bool :=
  forallb (λ item : string * string, surprise_ok (e !! item.2)) eco_metrics.
Definition valid_seasonality (s : dict) : bool :=
  num_or_absent (s !! "current_month_avg_return").

Definition valid_observation (asset_data : dict) : bool :=
  match sub_dict asset_data "technical", sub_dict asset_data "cot",
        sub_dict asset_data "retail", sub_dict asset_data "economic",
        sub_dict asset_data "seasonality" with
  | Some t, Some c, Some r, Some e, Some s =>
      valid_technical t && valid_cot c && valid_retail r
      && valid_economic e && valid_seasonality s
  | _, _, _, _, _ => false
  end.

(** The int stored under ["total_score"]. *)
Definition total_score_of (report : dict) : Z :=
  match report !! "total_score" with
  | Some (PInt z) => z
  | _ => 0
  end.

(** ** Scenarios *)

(** Scenario D of the specification: beats on GDP, both PMIs and retail
    sales, misses on CPI and PPI, the other metrics absent. *)
Definition scenario_D : dict :=
  <["gdp_surprise" := PInt 1]>
  (<["mPMI_surprise" := PFloat f_0_5]>
  (<["sPMI_surprise" := PInt 3]>
  (<["retail_surprise" := PFloat f_0_25]>
  (<["cpi_surprise" := PInt (-1)]>
  (<["ppi_surprise" := PFloat (SFopp f_0_8)]> ∅))))).

(** Scenarios A and B of the specification: a Bullish trend above all
    four moving averages, in Normal and in High volatility. *)
Definition scenario_A : dict :=
  <["trend" := PStr "Bullish"]>
  (<["above_20_sma" := PBool true]>
  (<["above_50_sma" := PBool true]>
  (<["above_100_sma" := PBool true]>
  (<["above_200_sma" := PBool true]>
  (<["volatility" := PStr "Normal"]> ∅))))).

Definition scenario_B : dict := <["volatility" := PStr "High"]> scenario_A.

(** An observation that is scored well, and one whose [long_pct] is a
    string. *)
Definition sample_asset : dict :=
  <["symbol" := PStr "USOIL"]>
  (<["technical" := PDict scenario_B]>
  (<["cot" := PDict (<["positioning" := PStr "bullish"]>
                      {["weekly_change" := PInt 3]})]>
  (<["retail" := PDict {["long_pct" := PInt 55]}]>
  (<["economic" := PDict scenario_D]>
  {["seasonality" :=
      PDict {["current_month_avg_return" := PFloat f_1_01]}]})))).

Definition empty_symbol_asset : dict := <["symbol" := PStr ""]> sample_asset.

Definition bad_long_pct_asset : dict :=
  <["retail" := PDict {["long_pct" := PStr "abc"]}]> sample_asset.

(** What [str] raises on an int of more than 4300 digits. *)
Definition digit_limit_error : exn :=
  ValueError
    ("Exceeds the limit (4300 digits) for integer string conversion; "
     +:+ "use sys.set_int_max_str_digits() to increase the limit").

(** CPython with its default limit of 4300 digits for the conversion of
    an int to a string. The symbols of the scenarios are strings and
    ints; lists and dicts, whose formatting depends on the depth of the
    call stack, are taken as formatted here. *)
Definition cpython : interpreter :=
  {| str_raises v :=
       match v with
       | PInt z =>
           if 10 ^ 4300 <=? Z.abs z then Some digit_limit_error else None
       | _ => None
       end |}.

(** An observation whose scoring fails (the technical part is null) and
    whose symbol is an int of 5001 digits. *)
Definition unprintable_asset : dict :=
  <["symbol" := PInt (10 ^ 5000)]> {["technical" := PNone]}.

(** A computation that ends in an exception. *)
Definition raises {A} (r : result A) : Prop := ∃ e, r = Raise e.

(** A list decorated with its own keys. *)
Definition with_key (r : dict) : Z * dict := (total_score_of r, r).

(** The symbol and the total of a report. *)
Definition report_summary (report : dict) : pyval * Z :=
  (dict_get report "symbol" PNone, total_score_of report).

Definition summaries (ranked : result (list dict))
  : result (list (pyval * Z)) :=
  l <- ranked; Ok (report_summary <$> l).

(** Three assets of totals 5, 5 and -1. *)
Definition asset_C : dict :=
  <["symbol" := PStr "C"]>
  (<["technical" := PDict scenario_A]>
  (<["cot" := PDict {["positioning" := PStr "bullish"]}]>
  {["retail" := PDict {["long_pct" := PInt 30]}]})).

Definition asset_A : dict :=
  <["symbol" := PStr "A"]>
  {["economic" := PDict
      (<["gdp_surprise" := PInt 1]>
      (<["mPMI_surprise" := PInt 1]>
      (<["sPMI_surprise" := PInt 1]>
      (<["retail_surprise" := PInt 1]>
      {["cpi_surprise" := PInt 1]}))))]}.

Definition asset_B : dict :=
  <["symbol" := PStr "B"]>
  {["cot" := PDict {["positioning" := PStr "bearish"]}]}.

Definition sample_clock (k : nat) : string := "2026-01-05T09:30:00".

(** ** The live bridge

    [TradePilotApp.get_live_analysis] of [src/core/live_bridge.py], the
    caller of [calculate_asset_score]. *)

(** What [YahooFinanceData.get_market_data] returns
    ([src/core/data_fetcher_yf.py]): a dict that holds the key ["error"]
    with a message, or the quote, whose prices are floats and whose moving
    averages are floats or [None]. *)
Record quote := {
  q_ticker : string;
  current_price : spec_float;
  change_percent : spec_float;
  sma_20 : option spec_float;
  sma_50 : option spec_float;
  sma_100 : option spec_float;
  sma_200 : option spec_float;
  volume : Z;
  q_timestamp : string
}.

Inductive market_data :=
  | FetchError (error : string)
  | Quote (q : quote).

(** The truth value of a float or [None]: [None] and the zeros are false,
    every other float (NaN too) is true. *)
Definition sma_truthy (sma : option spec_float) : bool :=
  match sma with
  | None | Some (S754_zero _) => false
  | Some _ => true
  end.

(** [a > b] on two floats. *)
Definition float_gt (a b : spec_float) : bool :=
  match xcompare (float_value a) (float_value b) with
  | Some Gt => true
  | _ => false
  end.

(** [raw_data['current_price'] > raw_data[sma] if raw_data[sma] else None] *)
Definition above_sma (price : spec_float) (sma : option spec_float) : pyval :=
  match sma with
  | Some s => if sma_truthy sma then PBool (float_gt price s) else PNone
  | None => PNone
  end.

Definition technical_input (q : quote) : result dict :=
  rising <- py_gt (PFloat (change_percent q)) (NInt 0);
  Ok (<["trend" := PStr (if rising then "bullish" else "bearish")]>
     (<["above_20_sma" := above_sma (current_price q) (sma_20 q)]>
     (<["above_50_sma" := above_sma (current_price q) (sma_50 q)]>
     (<["above_100_sma" := above_sma (current_price q) (sma_100 q)]>
     (<["above_200_sma" := above_sma (current_price q) (sma_200 q)]>
     (<["volatility" := PStr "normal"]>
     (<["current_price" := PFloat (current_price q)]> ∅))))))).

Definition asset_input (symbol_name : string) (technical : dict) : dict :=
  <["symbol" := PStr symbol_name]>
  (<["technical" := PDict technical]>
  (<["cot" := PDict (<["positioning" := PStr "neutral"]>
                      (<["weekly_change" := PInt 0]> ∅))]>
  (<["retail" := PDict (<["long_pct" := PInt 50]> ∅)]>
  (<["economic" := PDict ∅]>
  (<["seasonality" :=
       PDict (<["current_month_avg_return" := PInt 0]> ∅)]> ∅))))).

(** [raw_data] is the value that [self.fetcher.get_market_data(ticker,
    period="1y")] returned; [symbol_name] is [None] when the argument is
    left out. The result is a string or a report. *)
Definition get_live_analysis (py : interpreter) (now : string)
    (raw_data : market_data) (ticker : string) (symbol_name : option string)
  : result pyval :=
  let symbol_name :=
    match symbol_name with
    | None | Some EmptyString => ticker
    | Some name => name
    end in
  match raw_data with
  | FetchError error => Ok (PStr ("Error fetching data: " +:+ error))
  | Quote q =>
      technical <- technical_input q;
      analysis <-
        calculate_asset_score py now (asset_input symbol_name technical);
      Ok (PDict analysis)
  end.

(** *** Readings used in the statements *)

(** The labels in their order, from Very Bearish (-2) to Very Bullish (2);
    0 for a string that is no label. *)
Definition bias_rank (label : string) : Z :=
  if String.eqb label "Very Bullish" then 2
  else if String.eqb label "Bullish" then 1
  else if String.eqb label "Neutral" then 0
  else if String.eqb label "Bearish" then -1
  else if String.eqb label "Very Bearish" then -2
  else 0.

(** +1 for a moving average the price is above, -1 for one it is not
    above, 0 for one that is unknown. *)
Definition sma_vote (price : spec_float) (sma : option spec_float) : Z :=
  match above_sma price sma with
  | PBool true => 1
  | PBool false => -1
  | _ => 0
  end.

Definition sma_net (q : quote) : Z :=
  sma_vote (current_price q) (sma_20 q) + sma_vote (current_price q) (sma_50 q)
  + sma_vote (current_price q) (sma_100 q)
  + sma_vote (current_price q) (sma_200 q).

Definition rising (q : quote) : bool :=
  match xcompare (float_value (change_percent q)) (XFin 0) with
  | Some Gt => true
  | _ => false
  end.

(** The technical score of a quote, by the direction of the day and the
    net number of moving averages the price is above. *)
Definition live_technical_score (q : quote) : Z :=
  if rising q then
    if 3 <=? sma_net q then 3 else if -2 <=? sma_net q then 2 else 1
  else
    if sma_net q <=? -3 then -3 else if sma_net q <=? 2 then -2 else -1.

(** The field of a returned report, [None] when a string was returned. *)
Definition report_field (r : result pyval) (key : string) : option pyval :=
  match r with
  | Ok (PDict report) => report !! key
  | _ => None
  end.

(** [live.get("breakdown", {}).get("technical", {}).get("current_price")],
    as the endpoints read the price back. *)
Definition displayed_price (live : pyval) : result pyval :=
  breakdown <- py_get live "breakdown" (PDict ∅);
  technical <- py_get breakdown "technical" (PDict ∅);
  py_get technical "current_price" PNone.

(** The dict built for the technical part. *)
Definition live_technical (q : quote) : dict :=
  <["trend" := PStr (if rising q then "bullish" else "bearish")]>
  (<["above_20_sma" := above_sma (current_price q) (sma_20 q)]>
  (<["above_50_sma" := above_sma (current_price q) (sma_50 q)]>
  (<["above_100_sma" := above_sma (current_price q) (sma_100 q)]>
  (<["above_200_sma" := above_sma (current_price q) (sma_200 q)]>
  (<["volatility" := PStr "normal"]>
  (<["current_price" := PFloat (current_price q)]> ∅)))))).

(** The symbol of the report: the name, or the ticker when the name is
    left out or empty. *)
Definition live_symbol (ticker : string) (symbol_name : option string)
  : string :=
  match symbol_name with
  | None | Some EmptyString => ticker
  | Some name => name
  end.

(** ** Basic facts *)

Lemma clamp_range lo hi x : lo ≤ hi → lo ≤ clamp lo hi x ≤ hi.
Proof. unfold clamp. lia. Qed.

Lemma clamp_mono lo hi x y : x ≤ y → clamp lo hi x ≤ clamp lo hi y.
Proof. unfold clamp. lia. Qed.

Lemma py_get_dict (d : dict) key dflt :
  py_get (PDict d) key dflt = Ok (default dflt (d !! key)).
Proof. reflexivity. Qed.

Lemma py_real_num v x :
  py_real v = Some x → ∃ a, as_num v = Some a ∧ num_value a = XFin x.
Proof.
  unfold py_real. destruct (as_num v) as [a|]; [|done].
  destruct (num_value a) eqn:Ha; [done|done|].
  intros [= ->]. eauto.
Qed.

Lemma py_gt_real v x c q :
  py_real v = Some x → num_value c = XFin q → py_gt v c = Ok (Qgtb x q).
Proof.
  intros (a & Ha & Hx)%py_real_num Hc. unfold py_gt, Qgtb.
  by rewrite Ha, Hx, Hc.
Qed.

Lemma py_lt_real v x c q :
  py_real v = Some x → num_value c = XFin q → py_lt v c = Ok (Qltb x q).
Proof.
  intros (a & Ha & Hx)%py_real_num Hc. unfold py_lt, Qltb.
  by rewrite Ha, Hx, Hc.
Qed.

Lemma Qgtb_proper x y y' : (y == y')%Q → Qgtb x y = Qgtb x y'.
Proof. intros H. unfold Qgtb. by rewrite H. Qed.

Lemma Qltb_proper x y y' : (y == y')%Q → Qltb x y = Qltb x y'.
Proof. intros H. unfold Qltb. by rewrite H. Qed.

(** ** The bias label *)

(** The label by intervals of the total. *)
Lemma determine_bias_intervals total :
  _determine_bias total =
    if decide (8 ≤ total) then "Very Bullish"
    else if decide (3 ≤ total) then "Bullish"
    else if decide (-3 < total) then "Neutral"
    else if decide (-8 < total) then "Bearish"
    else "Very Bearish".
Proof.
  unfold _determine_bias.
  repeat case_decide;
    repeat match goal with
    | |- context [?a >=? ?b] => destruct (Z.geb_spec a b); try lia
    | |- context [?a >? ?b] => destruct (Z.gtb_spec a b); try lia
    | |- context [?a =? ?b] => destruct (Z.eqb_spec a b); try lia
    end; reflexivity.
Qed.

(** C3. For every integer total, [_determine_bias] returns the label of
    the first matching rule of the specification's ladder; 8 is Very
    Bullish, 7 is Bullish and -9 is Very Bearish. *)
Theorem determine_bias_ladder :
  (∀ total, _determine_bias total = bias_ladder total)
  ∧ _determine_bias 8 = "Very Bullish"
  ∧ _determine_bias 7 = "Bullish"
  ∧ _determine_bias (-9) = "Very Bearish".
Proof.
  split; [|by vm_compute].
  intros total. unfold _determine_bias, bias_ladder.
  destruct (Z.geb_spec total 8); [done|].
  destruct (Z.geb_spec total 5), (Z.geb_spec total 3); try done; lia.
Qed.

(** ** The seasonality score *)

(** The float literals of the thresholds denote 1, 1/2, -1 and -1/2. *)
Lemma literal_values :
  ∃ q1 q2 q3 q4,
    num_value (NFloat f_1_0) = XFin q1 ∧ (q1 == 1)%Q
    ∧ num_value (NFloat f_0_5) = XFin q2 ∧ (q2 == 1 # 2)%Q
    ∧ num_value (NFloat (SFopp f_1_0)) = XFin q3 ∧ (q3 == -1)%Q
    ∧ num_value (NFloat (SFopp f_0_5)) = XFin q4 ∧ (q4 == - (1 # 2))%Q.
Proof. do 4 eexists. repeat split; vm_compute; reflexivity. Qed.

Lemma seasonality_score_real (d : dict) v x :
  default (PInt 0) (d !! "current_month_avg_return") = v →
  py_real v = Some x →
  _calculate_seasonality_score (PDict d) = Ok (seasonality_step x).
Proof.
  intros Hv Hx.
  destruct literal_values
    as (q1 & q2 & q3 & q4 & H1 & E1 & H2 & E2 & H3 & E3 & H4 & E4).
  unfold _calculate_seasonality_score, seasonality_step.
  rewrite py_get_dict, Hv. cbn [bind].
  rewrite (py_gt_real _ _ _ _ Hx H1), (py_gt_real _ _ _ _ Hx H2),
    (py_lt_real _ _ _ _ Hx H3), (py_lt_real _ _ _ _ Hx H4).
  rewrite (Qgtb_proper _ _ _ E1), (Qgtb_proper _ _ _ E2),
    (Qltb_proper _ _ _ E3), (Qltb_proper _ _ _ E4).
  cbn [bind].
  repeat match goal with |- context [if ?b then _ else _] => destruct b end;
    reflexivity.
Qed.

(** A NaN makes every comparison false; the infinities fall in the
    outermost steps. *)
Lemma seasonality_score_nonfinite :
  _calculate_seasonality_score
      (PDict {["current_month_avg_return" := PFloat S754_nan]}) = Ok 0
  ∧ _calculate_seasonality_score
      (PDict {["current_month_avg_return" := PFloat (S754_infinity false)]})
    = Ok 2
  ∧ _calculate_seasonality_score
      (PDict {["current_month_avg_return" := PFloat (S754_infinity true)]})
    = Ok (-2).
Proof. by vm_compute. Qed.

(** C6. For every month average return, the seasonality score is the step
    function with strict comparisons: above 1.0 gives 2, above 0.5 gives
    1, below -1.0 gives -2, below -0.5 gives -1, otherwise 0. Exactly 1.0
    yields 1 and 1.01 yields 2. *)
Theorem seasonality_step_function :
  (∀ (seasonality : dict) v x,
     seasonality !! "current_month_avg_return" = Some v →
     py_real v = Some x →
     _calculate_seasonality_score (PDict seasonality)
     = Ok (seasonality_step x))
  ∧ _calculate_seasonality_score
      (PDict {["current_month_avg_return" := PFloat f_1_0]}) = Ok 1
  ∧ _calculate_seasonality_score
      (PDict {["current_month_avg_return" := PFloat f_1_01]}) = Ok 2.
Proof.
  split; [|by vm_compute].
  intros d v x Hv Hx. apply (seasonality_score_real d v x); [|done].
  by rewrite Hv.
Qed.

Lemma seasonality_step_function_witness :
  _calculate_seasonality_score
    (PDict {["current_month_avg_return" := PInt 1]})
  = Ok (seasonality_step 1).
Proof.
  apply (proj1 seasonality_step_function _ (PInt 1) 1%Q); reflexivity.
Defined.

(** ** The sentiment score *)

Lemma sentiment_score_real (cot retail : dict) p vc c vr r :
  dict_get cot "positioning" (PStr "neutral") = PStr p →
  dict_get cot "weekly_change" (PInt 0) = vc → py_real vc = Some c →
  dict_get retail "long_pct" (PInt 50) = vr → py_real vr = Some r →
  _calculate_sentiment_score (PDict cot) (PDict retail)
  = Ok (sentiment_spec p c r).
Proof.
  intros Hp Hvc Hc Hvr Hr.
  unfold _calculate_sentiment_score, sentiment_spec, clamp,
    positioning_vote, weekly_change_vote, retail_vote.
  cbn [py_get bind]. rewrite Hp, Hvc, Hvr. cbn [py_lower bind].
  rewrite (py_gt_real vc c (NInt 2) 2%Q Hc eq_refl),
    (py_lt_real vc c (NInt (-2)) (-2)%Q Hc eq_refl),
    (py_gt_real vr r (NInt 60) 60%Q Hr eq_refl),
    (py_lt_real vr r (NInt 40) 40%Q Hr eq_refl).
  cbn [bind].
  destruct (String.eqb (lower p) "bullish"), (String.eqb (lower p) "bearish"),
    (Qgtb c 2), (Qltb c (-2)), (Qgtb r 60), (Qltb r 40);
    cbn [bind]; f_equal; lia.
Qed.

Lemma sentiment_range cot retail s :
  _calculate_sentiment_score cot retail = Ok s → -2 ≤ s ≤ 2.
Proof.
  unfold _calculate_sentiment_score.
  repeat match goal with
  | |- bind ?m _ = _ → _ => destruct m; cbn [bind]; [|done]
  | |- context [if ?b then _ else _] => destruct b
  | |- Ok _ = Ok _ → _ => intros [= <-]; lia
  end.
Qed.

(** The score after the retail vote, for a long share of 59 and of 61. *)
Lemma retail_step_59_61 v59 x59 v61 x61 :
  py_real v59 = Some x59 → (x59 == 59)%Q →
  py_real v61 = Some x61 → (x61 == 61)%Q →
  py_gt v59 (NInt 60) = Ok false ∧ py_lt v59 (NInt 40) = Ok false
  ∧ py_gt v61 (NInt 60) = Ok true.
Proof.
  intros H59 E59 H61 E61.
  rewrite (py_gt_real v59 x59 (NInt 60) 60%Q H59 eq_refl),
    (py_lt_real v59 x59 (NInt 40) 40%Q H59 eq_refl),
    (py_gt_real v61 x61 (NInt 60) 60%Q H61 eq_refl).
  unfold Qgtb, Qltb. by rewrite E59, E61.
Qed.

Lemma sentiment_59_61 cot (retail : dict) v59 x59 v61 x61 :
  py_real v59 = Some x59 → (x59 == 59)%Q →
  py_real v61 = Some x61 → (x61 == 61)%Q →
  match _calculate_sentiment_score cot (PDict (<["long_pct" := v59]> retail)),
        _calculate_sentiment_score cot (PDict (<["long_pct" := v61]> retail))
  with
  | Ok s59, Ok s61 => s61 ≤ s59
  | Raise e59, Raise e61 => e59 = e61
  | _, _ => False
  end.
Proof.
  intros H59 E59 H61 E61.
  destruct (retail_step_59_61 v59 x59 v61 x61 H59 E59 H61 E61)
    as (G59 & L59 & G61).
  unfold _calculate_sentiment_score.
  destruct (py_get cot "positioning" _) as [pv|]; cbn [bind]; [|done].
  destruct (py_lower pv) as [p|]; cbn [bind]; [|done].
  destruct (py_get cot "weekly_change" _) as [vc|]; cbn [bind]; [|done].
  destruct (py_gt vc _) as [[]|]; cbn [bind]; [| |done].
  - rewrite !py_get_dict, !lookup_insert_eq. cbn [default from_option id bind].
    rewrite G59, L59, G61. cbn [bind]. lia.
  - destruct (py_lt vc _) as [selling|]; cbn [bind]; [|done].
    rewrite !py_get_dict, !lookup_insert_eq. cbn [default from_option id bind].
    rewrite G59, L59, G61. cbn [bind]. lia.
Qed.

(** C4. The sentiment score is the sum of the institutional positioning
    vote, the weekly change vote and the contrarian retail vote, clamped
    to [-2, 2]; raising the retail long share from 59 to 61 with all else
    fixed never raises the score; Bearish positioning with a weekly change
    of -3.0 and a long share of 75 scores -2. *)
Theorem sentiment_three_votes :
  (∀ (cot retail : dict) p vc c vr r,
     dict_get cot "positioning" (PStr "neutral") = PStr p →
     dict_get cot "weekly_change" (PInt 0) = vc → py_real vc = Some c →
     dict_get retail "long_pct" (PInt 50) = vr → py_real vr = Some r →
     _calculate_sentiment_score (PDict cot) (PDict retail)
     = Ok (clamp (-2) 2
             (positioning_vote p + weekly_change_vote c + retail_vote r)))
  ∧ (∀ cot (retail : dict) v59 x59 v61 x61,
       py_real v59 = Some x59 → (x59 == 59)%Q →
       py_real v61 = Some x61 → (x61 == 61)%Q →
       match
         _calculate_sentiment_score cot (PDict (<["long_pct" := v59]> retail)),
         _calculate_sentiment_score cot (PDict (<["long_pct" := v61]> retail))
       with
       | Ok s59, Ok s61 => s61 ≤ s59
       | Raise e59, Raise e61 => e59 = e61
       | _, _ => False
       end)
  ∧ _calculate_sentiment_score
      (PDict (<["positioning" := PStr "Bearish"]>
                {["weekly_change" := PFloat (b64_of_Z (-3))]}))
      (PDict {["long_pct" := PInt 75]}) = Ok (-2).
Proof.
  split; [|split]; [| |by vm_compute].
  - intros. by eapply sentiment_score_real.
  - intros. by eapply sentiment_59_61.
Qed.

Lemma sentiment_three_votes_witness :
  _calculate_sentiment_score
    (PDict {["positioning" := PStr "bullish"]})
    (PDict {["long_pct" := PInt 30]})
  = Ok (clamp (-2) 2
          (positioning_vote "bullish" + weekly_change_vote 0
           + retail_vote 30))
  ∧ match
      _calculate_sentiment_score (PDict ∅)
        (PDict (<["long_pct" := PInt 59]> ∅)),
      _calculate_sentiment_score (PDict ∅)
        (PDict (<["long_pct" := PInt 61]> ∅))
    with
    | Ok s59, Ok s61 => s61 ≤ s59
    | Raise e59, Raise e61 => e59 = e61
    | _, _ => False
    end.
Proof.
  split.
  - apply (proj1 sentiment_three_votes
             {["positioning" := PStr "bullish"]} {["long_pct" := PInt 30]}
             "bullish" (PInt 0) 0%Q (PInt 30) 30%Q); reflexivity.
  - apply (proj1 (proj2 sentiment_three_votes)
             (PDict ∅) ∅ (PInt 59) 59%Q (PInt 61) 61%Q); reflexivity.
Defined.

(** ** The economic score *)

Lemma xsign_range x : xsign x = -1 ∨ xsign x = 0 ∨ xsign x = 1.
Proof.
  destruct x as [|[]|q]; cbn; auto. destruct (q ?= 0)%Q; auto.
Qed.

Lemma surprise_vote_range o :
  surprise_vote o = -1 ∨ surprise_vote o = 0 ∨ surprise_vote o = 1.
Proof.
  destruct o as [v|]; cbn; [|auto].
  destruct (as_num v); auto using xsign_range.
Qed.

(** One turn of the loop adds the vote of the metric. *)
Lemma eco_step_vote score name v :
  surprise_ok (Some v) = true →
  eco_step score (name, v) = Ok (score + surprise_vote (Some v)).
Proof.
  unfold eco_step, surprise_vote, py_eq, py_gt, py_lt. cbn [snd].
  destruct v as [|b|z|f|s|l|d]; cbn [surprise_ok num_or_absent as_num is_None];
    try (intros ?%bool_decide_eq_true; by destruct select (is_Some None));
    intros _; cbn [orb].
  - f_equal. lia.
  - cbn [num_value xcompare xsign]. change (inject_Z 0) with 0%Q.
    destruct (inject_Z (Z.b2z b) ?= 0)%Q; cbn; f_equal; lia.
  - cbn [num_value xcompare xsign]. change (inject_Z 0) with 0%Q.
    destruct (inject_Z z ?= 0)%Q; cbn; f_equal; lia.
  - destruct f as [s|[]| |s m e]; cbn [num_value float_value xcompare xsign];
      change (inject_Z 0) with 0%Q.
    + change (0 ?= 0)%Q with Eq. cbn. f_equal; lia.
    + cbn. f_equal; lia.
    + cbn. f_equal; lia.
    + cbn. f_equal; lia.
    + destruct (dyadic _ e ?= 0)%Q; cbn; f_equal; lia.
Qed.

Lemma build_metrics_dict (d : dict) keys :
  build_metrics (PDict d) keys
  = Ok ((λ item : string * string, (item.1, dict_get d item.2 (PInt 0)))
          <$> keys).
Proof.
  induction keys as [|[metric key] keys IH]; [done|].
  cbn [build_metrics py_get bind]. by rewrite IH.
Qed.

Lemma surprise_vote_default (d : dict) key :
  surprise_vote (Some (dict_get d key (PInt 0))) = surprise_vote (d !! key).
Proof. unfold dict_get. by destruct (d !! key). Qed.

Lemma surprise_ok_default (d : dict) key :
  surprise_ok (d !! key) = true →
  surprise_ok (Some (dict_get d key (PInt 0))) = true.
Proof. unfold dict_get. by destruct (d !! key). Qed.

(** The loop over the metrics adds up the votes. *)
Lemma eco_loop_votes (d : dict) keys score :
  forallb (λ item : string * string, surprise_ok (d !! item.2)) keys = true →
  for_each eco_step
    ((λ item : string * string, (item.1, dict_get d item.2 (PInt 0))) <$> keys)
    score
  = Ok (score
        + Zsum ((λ item : string * string, surprise_vote (d !! item.2))
                  <$> keys)).
Proof.
  revert score. induction keys as [|[metric key] keys IH]; intros score.
  - intros _. cbn. f_equal. lia.
  - cbn [forallb]. intros [Hk Hks]%andb_true_iff.
    cbn [fmap list_fmap for_each fst snd].
    rewrite eco_step_vote by by apply surprise_ok_default.
    cbn [bind]. rewrite IH by done. rewrite surprise_vote_default.
    cbn [fmap list_fmap Zsum foldr snd]. f_equal. unfold Zsum. lia.
Qed.

Lemma eco_score_votes (economic : dict) :
  valid_economic economic = true →
  _calculate_eco_score (PDict economic) = Ok (eco_spec economic).
Proof.
  intros Hok. unfold _calculate_eco_score.
  rewrite build_metrics_dict. cbn [bind].
  rewrite (eco_loop_votes economic eco_metrics 0 Hok). cbn [bind].
  unfold eco_spec, eco_votes, clamp. f_equal.
Qed.

Lemma eco_range economic s :
  _calculate_eco_score economic = Ok s → -5 ≤ s ≤ 5.
Proof.
  unfold _calculate_eco_score.
  destruct (build_metrics _ _) as [ms|]; cbn [bind]; [|done].
  destruct (for_each _ _ _); cbn [bind]; [|done].
  intros [= <-]. lia.
Qed.

(** A sum of votes is the number of beats minus the number of misses. *)
Lemma Zsum_votes votes :
  Forall (λ v, v = -1 ∨ v = 0 ∨ v = 1) votes →
  Zsum votes = count_votes 1 votes - count_votes (-1) votes.
Proof.
  unfold count_votes. induction 1 as [|v votes Hv _ IH]; [done|].
  cbn [Zsum foldr]. fold (Zsum votes). rewrite IH, !filter_cons.
  repeat case_decide; cbn [length]; lia.
Qed.

Lemma eco_votes_range economic :
  Forall (λ v, v = -1 ∨ v = 0 ∨ v = 1) (eco_votes economic).
Proof.
  unfold eco_votes. apply Forall_fmap, Forall_true.
  intros item. apply surprise_vote_range.
Qed.

(** C5. The economic score is the sum, over the 14 metrics, of +1 for a
    strictly positive surprise and -1 for a strictly negative one (absent,
    null and zero count for nothing), clamped to [-5, 5]; four beats and
    two misses score 2. *)
Theorem eco_score_sum_of_votes :
  (∀ economic : dict,
     valid_economic economic = true →
     _calculate_eco_score (PDict economic)
     = Ok (clamp (-5) 5 (Zsum (eco_votes economic)))
     ∧ Zsum (eco_votes economic)
       = count_votes 1 (eco_votes economic)
         - count_votes (-1) (eco_votes economic)
     ∧ (count_votes 1 (eco_votes economic) = 4 →
        count_votes (-1) (eco_votes economic) = 2 →
        _calculate_eco_score (PDict economic) = Ok 2))
  ∧ surprise_vote None = 0
  ∧ surprise_vote (Some PNone) = 0
  ∧ surprise_vote (Some (PInt 0)) = 0
  ∧ _calculate_eco_score (PDict scenario_D) = Ok 2.
Proof.
  split; [|by vm_compute].
  intros economic Hok.
  pose proof (Zsum_votes _ (eco_votes_range economic)) as Hsum.
  split; [by apply eco_score_votes|]. split; [done|].
  intros Hpos Hneg. rewrite eco_score_votes by done.
  unfold eco_spec, clamp. f_equal. lia.
Qed.

Lemma eco_score_sum_of_votes_witness :
  valid_economic scenario_D = true
  ∧ _calculate_eco_score (PDict scenario_D)
    = Ok (clamp (-5) 5 (Zsum (eco_votes scenario_D))).
Proof.
  split; [reflexivity|].
  exact (proj1 (proj1 eco_score_sum_of_votes scenario_D eq_refl)).
Defined.

(** ** The technical score *)

Lemma round_half_even_frac_nearest n d :
  0 < d → 2 * Z.abs (n - round_half_even_frac n d * d) ≤ d.
Proof.
  intros Hd. unfold round_half_even_frac.
  pose proof (Z.div_mod n d ltac:(lia)) as Hn.
  pose proof (Z.mod_pos_bound n d Hd) as Hr.
  destruct (Z.compare_spec (2 * (n mod d)) d);
    try destruct (Z.even (n / d)); nia.
Qed.

(** The rounded value is a nearest integer. *)
Lemma round_half_even_nearest (x : Q) :
  (Qabs (x - inject_Z (round_half_even x)) <= 1 # 2)%Q.
Proof.
  destruct x as [n d]. unfold round_half_even. cbn [Qnum Qden].
  pose proof (round_half_even_frac_nearest n (Zpos d) ltac:(lia)) as H.
  unfold Qle, Qabs, Qminus, Qplus, Qopp, inject_Z. cbn [Qnum Qden].
  rewrite Pos.mul_1_r. lia.
Qed.

(** Only [True] and [False] count for the moving averages. *)
Lemma sma_cases (d : dict) key :
  ∃ c, (c = PBool true ∨ c = PBool false ∨ c = PNone)
       ∧ (∀ score name,
            sma_step score (name, dict_get d key PNone)
            = sma_step score (name, c))
       ∧ sma_contribution (d !! key) = sma_contribution (Some c).
Proof.
  unfold dict_get.
  destruct (d !! key) as [[|[]| | | | |]|]; cbn [default from_option id];
    first [ by exists (PBool true); auto
          | by exists (PBool false); auto
          | by exists PNone; auto ].
Qed.

(** The binary64 computation and the computation on exact rationals give
    the same score: by cases on the trend, the four moving averages and
    the volatility. *)
Lemma technical_score_eq (technical : dict) trend volatility :
  dict_get technical "trend" (PStr "neutral") = PStr trend →
  dict_get technical "volatility" (PStr "normal") = PStr volatility →
  _calculate_technical_score (PDict technical)
  = Ok (technical_spec technical trend volatility).
Proof.
  intros Htrend Hvol.
  unfold _calculate_technical_score, technical_spec, technical_running_sum,
    damped, trend_contribution, sma_keys.
  cbn [py_get bind fmap list_fmap fold_left].
  rewrite Htrend, Hvol. cbn [py_lower bind].
  destruct (sma_cases technical "above_20_sma") as (c1 & H1 & -> & ->).
  destruct (sma_cases technical "above_50_sma") as (c2 & H2 & -> & ->).
  destruct (sma_cases technical "above_100_sma") as (c3 & H3 & -> & ->).
  destruct (sma_cases technical "above_200_sma") as (c4 & H4 & -> & ->).
  destruct H1 as [-> | [-> | ->]], H2 as [-> | [-> | ->]],
    H3 as [-> | [-> | ->]], H4 as [-> | [-> | ->]];
  destruct (String.eqb (lower trend) "bullish"),
    (String.eqb (lower trend) "bearish"),
    (String.eqb (lower trend) "neutral"),
    (String.eqb (lower volatility) "high");
  vm_compute; reflexivity.
Qed.

Lemma technical_range technical s :
  _calculate_technical_score technical = Ok s → -3 ≤ s ≤ 3.
Proof.
  unfold _calculate_technical_score.
  repeat match goal with
  | |- bind ?m _ = _ → _ => destruct m; cbn [bind]; [|done]
  end.
  intros [= <-]. lia.
Qed.

(** In scenario B the binary64 product 3.0 * 0.8 is the double next to
    2.4, namely 5404319552844596 / 2^51, which rounds to 2. *)
Lemma scenario_B_binary64 :
  num_mul
    (fold_left sma_step
       [("20_day_sma", PBool true); ("50_day_sma", PBool true);
        ("100_day_sma", PBool true); ("200_day_sma", PBool true)]
       (num_add (NInt 0) (NInt 2)))
    (NFloat f_0_8)
  = NFloat (S754_finite false 5404319552844596 (-51))
  ∧ py_round (NFloat (S754_finite false 5404319552844596 (-51))) = Ok 2.
Proof. by vm_compute. Qed.

(** C1. The technical score is the trend contribution (Bullish +2,
    Bearish -2, otherwise 0) plus a quarter for every moving average the
    price is above and minus a quarter for every one it is below,
    multiplied by 0.8 when the volatility is High, rounded to a nearest
    integer and clamped to [-3, 3]. Scenario A scores 3; scenario B has raw
    sum 3, damped to 2.4, and scores 2. *)
Theorem technical_score_formula :
  (∀ (technical : dict) trend volatility,
     dict_get technical "trend" (PStr "neutral") = PStr trend →
     dict_get technical "volatility" (PStr "normal") = PStr volatility →
     let raw :=
       (trend_contribution trend
        + (sma_contribution (technical !! "above_20_sma")
           + (sma_contribution (technical !! "above_50_sma")
              + (sma_contribution (technical !! "above_100_sma")
                 + (sma_contribution (technical !! "above_200_sma") + 0)))))%Q
     in
     let x :=
       if String.eqb (lower volatility) "high" then (raw * (8 # 10))%Q
       else raw in
     _calculate_technical_score (PDict technical)
     = Ok (clamp (-3) 3 (round_half_even x))
     ∧ (Qabs (x - inject_Z (round_half_even x)) <= 1 # 2)%Q)
  ∧ _calculate_technical_score (PDict scenario_A) = Ok 3
  ∧ (technical_running_sum scenario_B "Bullish" == 3)%Q
  ∧ (damped "High" (technical_running_sum scenario_B "Bullish") == 24 # 10)%Q
  ∧ _calculate_technical_score (PDict scenario_B) = Ok 2.
Proof.
  split; [|by vm_compute].
  intros technical trend volatility Htrend Hvol raw x. split.
  - by rewrite (technical_score_eq technical trend volatility).
  - apply round_half_even_nearest.
Qed.

Lemma technical_score_formula_witness :
  dict_get scenario_B "trend" (PStr "neutral") = PStr "Bullish"
  ∧ dict_get scenario_B "volatility" (PStr "normal") = PStr "High"
  ∧ _calculate_technical_score (PDict scenario_B)
    = Ok (technical_spec scenario_B "Bullish" "High").
Proof.
  split; [reflexivity|]. split; [reflexivity|].
  exact (proj1 (proj1 technical_score_formula scenario_B "Bullish" "High"
                  eq_refl eq_refl)).
Defined.

(** ** The report *)

Lemma seasonality_range seasonality s :
  _calculate_seasonality_score seasonality = Ok s → -2 ≤ s ≤ 2.
Proof.
  unfold _calculate_seasonality_score.
  repeat match goal with
  | |- bind ?m _ = _ → _ => destruct m as [[]|]; cbn [bind]; [| |done]
  | |- bind ?m _ = _ → _ => destruct m; cbn [bind]; [|done]
  | |- Ok _ = Ok _ → _ => intros [= <-]; lia
  end.
Qed.

(** Whatever the observation, sub-scores that are computed are in range. *)
Lemma sub_scores_range asset_data t s e b :
  sub_scores asset_data = Ok (t, s, e, b) →
  -3 ≤ t ≤ 3 ∧ -2 ≤ s ≤ 2 ∧ -5 ≤ e ≤ 5 ∧ -2 ≤ b ≤ 2.
Proof.
  unfold sub_scores.
  destruct (_calculate_technical_score _) as [t'|] eqn:Ht; cbn [bind]; [|done].
  destruct (_calculate_sentiment_score _ _) as [s'|] eqn:Hs; cbn [bind]; [|done].
  destruct (_calculate_eco_score _) as [e'|] eqn:He; cbn [bind]; [|done].
  destruct (_calculate_seasonality_score _) as [b'|] eqn:Hb; cbn [bind]; [|done].
  intros [= <- <- <- <-].
  pose proof (technical_range _ _ Ht). pose proof (sentiment_range _ _ _ Hs).
  pose proof (eco_range _ _ He). pose proof (seasonality_range _ _ Hb). done.
Qed.

Lemma sub_dict_get asset_data key d :
  sub_dict asset_data key = Some d →
  dict_get asset_data key (PDict ∅) = PDict d.
Proof.
  unfold sub_dict, dict_get.
  destruct (asset_data !! key) as [[]|]; cbn; congruence.
Qed.

Lemma str_or_absent_get (d : dict) key dflt :
  str_or_absent (d !! key) = true → ∃ s, dict_get d key (PStr dflt) = PStr s.
Proof.
  unfold dict_get. destruct (d !! key) as [[]|]; cbn; try done; eauto.
Qed.

Lemma num_or_absent_get (d : dict) key z :
  num_or_absent (d !! key) = true → is_Some (as_num (dict_get d key (PInt z))).
Proof.
  unfold dict_get. destruct (d !! key) as [v|]; cbn; [|by eauto].
  by intros ?%bool_decide_eq_true.
Qed.

Lemma py_gt_num v c : is_Some (as_num v) → ∃ b, py_gt v c = Ok b.
Proof. intros [a Ha]. unfold py_gt. rewrite Ha. eauto. Qed.

Lemma py_lt_num v c : is_Some (as_num v) → ∃ b, py_lt v c = Ok b.
Proof. intros [a Ha]. unfold py_lt. rewrite Ha. eauto. Qed.

Lemma technical_valid t :
  valid_technical t = true → ∃ s, _calculate_technical_score (PDict t) = Ok s.
Proof.
  intros [Htr Hvol]%andb_true_iff.
  destruct (str_or_absent_get t "trend" "neutral" Htr) as [trend Htrend].
  destruct (str_or_absent_get t "volatility" "normal" Hvol) as [vol Hv].
  rewrite (technical_score_eq t trend vol Htrend Hv). eauto.
Qed.

Lemma sentiment_valid c r :
  valid_cot c = true → valid_retail r = true →
  ∃ s, _calculate_sentiment_score (PDict c) (PDict r) = Ok s.
Proof.
  intros [Hp Hc]%andb_true_iff Hr.
  destruct (str_or_absent_get c "positioning" "neutral" Hp) as [p Hpos].
  pose proof (num_or_absent_get c "weekly_change" 0 Hc) as Hvc.
  pose proof (num_or_absent_get r "long_pct" 50 Hr) as Hvr.
  destruct (py_gt_num _ (NInt 2) Hvc) as [b1 H1].
  destruct (py_lt_num _ (NInt (-2)) Hvc) as [b2 H2].
  destruct (py_gt_num _ (NInt 60) Hvr) as [b3 H3].
  destruct (py_lt_num _ (NInt 40) Hvr) as [b4 H4].
  unfold _calculate_sentiment_score. cbn [py_get bind].
  rewrite Hpos. cbn [py_lower bind]. rewrite H1. cbn [bind].
  destruct b1; cbn [bind]; rewrite ?H2; cbn [bind]; rewrite H3; cbn [bind];
    destruct b3; cbn [bind]; rewrite ?H4; cbn [bind]; eauto.
Qed.

Lemma seasonality_valid s :
  valid_seasonality s = true →
  ∃ b, _calculate_seasonality_score (PDict s) = Ok b.
Proof.
  intros Hs.
  pose proof (num_or_absent_get s "current_month_avg_return" 0 Hs) as Hv.
  destruct (py_gt_num _ (NFloat f_1_0) Hv) as [b1 H1].
  destruct (py_gt_num _ (NFloat f_0_5) Hv) as [b2 H2].
  destruct (py_lt_num _ (NFloat (SFopp f_1_0)) Hv) as [b3 H3].
  destruct (py_lt_num _ (NFloat (SFopp f_0_5)) Hv) as [b4 H4].
  unfold _calculate_seasonality_score. cbn [py_get bind].
  rewrite H1. cbn [bind]. destruct b1; [by eauto|].
  rewrite H2. cbn [bind]. destruct b2; [by eauto|].
  rewrite H3. cbn [bind]. destruct b3; [by eauto|].
  rewrite H4. cbn [bind]. destruct b4; eauto.
Qed.

(** A well-typed observation is scored without an exception. *)
Lemma sub_scores_valid asset_data :
  valid_observation asset_data = true →
  ∃ t s e b, sub_scores asset_data = Ok (t, s, e, b).
Proof.
  unfold valid_observation.
  destruct (sub_dict asset_data "technical") as [t|] eqn:Ht; [|done].
  destruct (sub_dict asset_data "cot") as [c|] eqn:Hc; [|done].
  destruct (sub_dict asset_data "retail") as [r|] eqn:Hr; [|done].
  destruct (sub_dict asset_data "economic") as [e|] eqn:He; [|done].
  destruct (sub_dict asset_data "seasonality") as [s|] eqn:Hs; [|done].
  intros ([[[Vt Vc]%andb_true_iff Vr]%andb_true_iff Ve]%andb_true_iff
          & Vs)%andb_true_iff.
  unfold sub_scores.
  rewrite (sub_dict_get _ _ _ Ht), (sub_dict_get _ _ _ Hc),
    (sub_dict_get _ _ _ Hr), (sub_dict_get _ _ _ He), (sub_dict_get _ _ _ Hs).
  destruct (technical_valid t Vt) as [ts ->].
  destruct (sentiment_valid c r Vc Vr) as [ss ->].
  rewrite (eco_score_votes e Ve).
  destruct (seasonality_valid s Vs) as [bs ->].
  cbn [bind]. eauto.
Qed.

(** The three ways out of [calculate_asset_score]: the report of the
    scores, the zeroed report after the message for the log has been
    formatted, or the exception raised by the formatting of the symbol. *)
Lemma calculate_asset_score_cases py now asset_data :
  let symbol := dict_get asset_data "symbol" (PStr "UNKNOWN") in
  (∃ scores,
     sub_scores asset_data = Ok scores
     ∧ calculate_asset_score py now asset_data
       = Ok (score_report now symbol asset_data scores))
  ∨ (∃ e,
       sub_scores asset_data = Raise e
       ∧ format_value py symbol = Ok tt
       ∧ calculate_asset_score py now asset_data
         = Ok (fallback_report symbol e))
  ∨ (∃ e e',
       sub_scores asset_data = Raise e
       ∧ format_value py symbol = Raise e'
       ∧ calculate_asset_score py now asset_data = Raise e').
Proof.
  unfold calculate_asset_score.
  destruct (sub_scores asset_data) as [scores|e]; cbn [bind try_except];
    [by eauto|].
  destruct (format_value py _) as [[]|e']; cbn [bind]; eauto 10.
Qed.

Lemma score_report_fields now symbol asset_data t s e b :
  let report := score_report now symbol asset_data (t, s, e, b) in
  report !! "symbol" = Some symbol
  ∧ report !! "total_score" = Some (PInt (t + s + e + b))
  ∧ report !! "technical_score" = Some (PInt t)
  ∧ report !! "sentiment_score" = Some (PInt s)
  ∧ report !! "eco_score" = Some (PInt e)
  ∧ report !! "seasonality_score" = Some (PInt b)
  ∧ report !! "bias" = Some (PStr (_determine_bias (t + s + e + b)))
  ∧ report !! "timestamp" = Some (PStr now)
  ∧ report !! "error" = None.
Proof. cbn zeta. unfold score_report. repeat split; by simplify_map_eq. Qed.

Lemma fallback_report_fields symbol e :
  let report := fallback_report symbol e in
  report !! "symbol" = Some symbol
  ∧ report !! "total_score" = Some (PInt 0)
  ∧ report !! "technical_score" = Some (PInt 0)
  ∧ report !! "sentiment_score" = Some (PInt 0)
  ∧ report !! "eco_score" = Some (PInt 0)
  ∧ report !! "bias" = Some (PStr "Neutral")
  ∧ report !! "error" = Some (PStr (exn_str e))
  ∧ report !! "seasonality_score" = None
  ∧ report !! "breakdown" = None
  ∧ report !! "timestamp" = None.
Proof. cbn zeta. unfold fallback_report. repeat split; by simplify_map_eq. Qed.

Lemma fallback_report_dom symbol e :
  dom (fallback_report symbol e)
  = ({["symbol"; "total_score"; "technical_score"; "sentiment_score";
      "eco_score"; "bias"; "error"]} : gset string).
Proof. unfold fallback_report. rewrite !dom_insert_L, dom_empty_L. set_solver. Qed.

(** A symbol that is a string, or absent, is formatted in every
    interpreter. *)
Lemma string_symbol_formats py (asset_data : dict) :
  str_or_absent (asset_data !! "symbol") = true →
  format_value py (dict_get asset_data "symbol" (PStr "UNKNOWN")) = Ok tt.
Proof.
  unfold dict_get. by destruct (asset_data !! "symbol") as [[]|].
Qed.

Lemma calculate_asset_score_raise py now asset_data e :
  sub_scores asset_data = Raise e →
  format_value py (dict_get asset_data "symbol" (PStr "UNKNOWN")) = Ok tt →
  calculate_asset_score py now asset_data
  = Ok (fallback_report (dict_get asset_data "symbol" (PStr "UNKNOWN")) e).
Proof.
  intros H Hf. unfold calculate_asset_score. rewrite H. cbn [bind try_except].
  by rewrite Hf.
Qed.

(** The exception of the handler itself leaves the function. *)
Lemma calculate_asset_score_handler_raises py now asset_data e e' :
  sub_scores asset_data = Raise e →
  format_value py (dict_get asset_data "symbol" (PStr "UNKNOWN")) = Raise e' →
  calculate_asset_score py now asset_data = Raise e'.
Proof.
  intros H Hf. unfold calculate_asset_score. rewrite H. cbn [bind try_except].
  by rewrite Hf.
Qed.

Lemma calculate_asset_score_ok py now asset_data scores :
  sub_scores asset_data = Ok scores →
  calculate_asset_score py now asset_data
  = Ok (score_report now (dict_get asset_data "symbol" (PStr "UNKNOWN"))
          asset_data scores).
Proof. intros H. unfold calculate_asset_score. by rewrite H. Qed.

(** Nothing is raised when the scoring succeeds or the symbol can be
    formatted. *)
Lemma calculate_asset_score_returns py now asset_data :
  (∃ scores, sub_scores asset_data = Ok scores)
  ∨ format_value py (dict_get asset_data "symbol" (PStr "UNKNOWN")) = Ok tt →
  ∃ report, calculate_asset_score py now asset_data = Ok report.
Proof.
  intros H.
  destruct (calculate_asset_score_cases py now asset_data)
    as [(? & _ & ->) | [(? & _ & _ & ->) | (e & e' & Hsc & Hf & _)]];
    [by eauto|by eauto|].
  destruct H as [[scores H]|H]; congruence.
Qed.

Lemma calculate_asset_score_not_raises py now asset_data :
  (∃ scores, sub_scores asset_data = Ok scores)
  ∨ format_value py (dict_get asset_data "symbol" (PStr "UNKNOWN")) = Ok tt →
  ¬ raises (calculate_asset_score py now asset_data).
Proof.
  intros [report Hr]%(calculate_asset_score_returns py now).
  rewrite Hr. intros [e He]. discriminate He.
Qed.

(** C2. For every well-typed observation the report holds a technical
    score in [-3, 3], a sentiment score in [-2, 2], an economic score in
    [-5, 5], a seasonality score in [-2, 2], and a total that is exactly
    their sum, hence in [-12, 12]. *)
Theorem report_scores_in_range py now asset_data :
  valid_observation asset_data = true →
  ∃ report t s e b,
    calculate_asset_score py now asset_data = Ok report
    ∧ report !! "technical_score" = Some (PInt t) ∧ -3 ≤ t ≤ 3
    ∧ report !! "sentiment_score" = Some (PInt s) ∧ -2 ≤ s ≤ 2
    ∧ report !! "eco_score" = Some (PInt e) ∧ -5 ≤ e ≤ 5
    ∧ report !! "seasonality_score" = Some (PInt b) ∧ -2 ≤ b ≤ 2
    ∧ report !! "total_score" = Some (PInt (t + s + e + b))
    ∧ -12 ≤ t + s + e + b ≤ 12.
Proof.
  intros (t & s & e & b & Hsc)%sub_scores_valid.
  destruct (sub_scores_range _ _ _ _ _ Hsc) as (Ht & Hs & He & Hb).
  rewrite (calculate_asset_score_ok py now _ _ Hsc).
  destruct (score_report_fields now (dict_get asset_data "symbol" (PStr "UNKNOWN"))
              asset_data t s e b) as (_ & Htot & Htech & Hsen & Heco & Hsea & _).
  eexists _, t, s, e, b. split; [reflexivity|].
  repeat split; first [assumption | lia].
Qed.

Lemma report_scores_in_range_witness :
  valid_observation sample_asset = true
  ∧ ∃ report t s e b,
      calculate_asset_score cpython "2026-01-05T09:30:00" sample_asset
      = Ok report
      ∧ report !! "technical_score" = Some (PInt t) ∧ -3 ≤ t ≤ 3
      ∧ report !! "sentiment_score" = Some (PInt s) ∧ -2 ≤ s ≤ 2
      ∧ report !! "eco_score" = Some (PInt e) ∧ -5 ≤ e ≤ 5
      ∧ report !! "seasonality_score" = Some (PInt b) ∧ -2 ≤ b ≤ 2
      ∧ report !! "total_score" = Some (PInt (t + s + e + b))
      ∧ -12 ≤ t + s + e + b ≤ 12.
Proof.
  (split; [vm_compute; reflexivity|]).
  apply (report_scores_in_range cpython "2026-01-05T09:30:00" sample_asset).
  (vm_compute; reflexivity).
Defined.

(** C7, as the specification states it, fails: an empty symbol raises
    nothing, and a [long_pct] that is a string raises nothing either: the
    [TypeError] is caught and the zeroed report is returned. *)
Lemma validation_error_not_surfaced :
  ¬ raises (calculate_asset_score cpython "2026-01-05T09:30:00"
              empty_symbol_asset)
  ∧ ¬ raises (calculate_asset_score cpython "2026-01-05T09:30:00"
                bad_long_pct_asset)
  ∧ calculate_asset_score cpython "2026-01-05T09:30:00" bad_long_pct_asset
    = Ok (fallback_report
            (dict_get bad_long_pct_asset "symbol" (PStr "UNKNOWN"))
            (TypeError
               "'>' not supported between instances of 'str' and 'int'"))
  ∧ dict_get bad_long_pct_asset "symbol" (PStr "UNKNOWN") = PStr "USOIL".
Proof.
  split; [|split; [|split]].
  - apply calculate_asset_score_not_raises. right. reflexivity.
  - apply calculate_asset_score_not_raises. right. reflexivity.
  - apply calculate_asset_score_raise; [vm_compute|]; reflexivity.
  - vm_compute; reflexivity.
Qed.

(** A [long_pct] that is not a number stops the scoring at the
    comparison with 60. *)
Lemma bad_long_pct_scores asset_data t c r v :
  sub_dict asset_data "technical" = Some t → valid_technical t = true →
  sub_dict asset_data "cot" = Some c → valid_cot c = true →
  asset_data !! "retail" = Some (PDict r) →
  r !! "long_pct" = Some v → as_num v = None →
  sub_scores asset_data = Raise (not_supported ">" v (NInt 60)).
Proof.
  intros Ht Vt Hc Vc Hr Hv Hnum. unfold sub_scores.
  rewrite (sub_dict_get _ _ _ Ht), (sub_dict_get _ _ _ Hc).
  destruct (technical_valid t Vt) as [ts ->]. cbn [bind].
  unfold dict_get at 1. rewrite Hr. cbn [default from_option id].
  apply andb_true_iff in Vc as [Hp Hch].
  destruct (str_or_absent_get c "positioning" "neutral" Hp) as [p Hpos].
  pose proof (num_or_absent_get c "weekly_change" 0 Hch) as Hvc.
  destruct (py_gt_num _ (NInt 2) Hvc) as [b1 H1].
  destruct (py_lt_num _ (NInt (-2)) Hvc) as [b2 H2].
  unfold _calculate_sentiment_score. cbn [py_get bind].
  rewrite Hpos. cbn [py_lower bind]. rewrite H1. cbn [bind].
  unfold dict_get at 2. rewrite Hv. cbn [default from_option id].
  unfold py_gt at 1. rewrite Hnum.
  destruct b1; cbn [bind]; rewrite ?H2; cbn [bind]; reflexivity.
Qed.

(** C7, amended. [calculate_asset_score] does not surface a validation
    failure. An observation with an empty symbol is scored like any other
    and its report carries the empty symbol. When a field has the wrong
    type, as a [long_pct] that is not a number, the exception is caught
    and, the symbol being one that can be formatted for the log (every
    string is), the zeroed Neutral report with an error field is
    returned. *)
Theorem validation_error_swallowed py :
  (∀ now asset_data,
     format_value py (dict_get asset_data "symbol" (PStr "UNKNOWN")) = Ok tt →
     ∃ report,
       calculate_asset_score py now asset_data = Ok report
       ∧ report !! "symbol"
         = Some (dict_get asset_data "symbol" (PStr "UNKNOWN")))
  ∧ (∀ now asset_data,
       asset_data !! "symbol" = Some (PStr "") →
       valid_observation asset_data = true →
       ∃ report,
         calculate_asset_score py now asset_data = Ok report
         ∧ report !! "symbol" = Some (PStr "")
         ∧ report !! "error" = None)
  ∧ (∀ now asset_data t c r v,
       sub_dict asset_data "technical" = Some t → valid_technical t = true →
       sub_dict asset_data "cot" = Some c → valid_cot c = true →
       asset_data !! "retail" = Some (PDict r) →
       r !! "long_pct" = Some v → as_num v = None →
       format_value py (dict_get asset_data "symbol" (PStr "UNKNOWN"))
       = Ok tt →
       calculate_asset_score py now asset_data
       = Ok (fallback_report (dict_get asset_data "symbol" (PStr "UNKNOWN"))
               (not_supported ">" v (NInt 60))))
  ∧ (∀ asset_data : dict,
       str_or_absent (asset_data !! "symbol") = true →
       format_value py (dict_get asset_data "symbol" (PStr "UNKNOWN"))
       = Ok tt).
Proof.
  split; [|split; [|split]].
  - intros now asset_data Hf.
    destruct (calculate_asset_score_cases py now asset_data)
      as [([[[t s] e] b] & _ & ->) | [(ex & _ & _ & ->) | (e & e' & _ & Hf' & _)]];
      [| |congruence]; eexists; (split; [reflexivity|]).
    + exact (proj1 (score_report_fields _ _ _ _ _ _ _)).
    + exact (proj1 (fallback_report_fields _ _)).
  - intros now asset_data Hsym (t & s & e & b & Hsc)%sub_scores_valid.
    rewrite (calculate_asset_score_ok py now _ _ Hsc).
    eexists; split; [done|].
    unfold dict_get. rewrite Hsym. cbn [default from_option id].
    destruct (score_report_fields now (PStr "") asset_data t s e b)
      as (Hs & _ & _ & _ & _ & _ & _ & _ & He).
    by split.
  - intros now asset_data t c r v Ht Vt Hc Vc Hr Hv Hnum Hf.
    apply calculate_asset_score_raise; [|exact Hf].
    by eapply bad_long_pct_scores.
  - apply string_symbol_formats.
Qed.

Lemma validation_error_swallowed_witness :
  calculate_asset_score cpython "2026-01-05T09:30:00" bad_long_pct_asset
  = Ok (fallback_report (dict_get bad_long_pct_asset "symbol" (PStr "UNKNOWN"))
          (not_supported ">" (PStr "abc") (NInt 60))).
Proof.
  apply (proj1 (proj2 (proj2 (validation_error_swallowed cpython)))
           "2026-01-05T09:30:00"
           bad_long_pct_asset scenario_B
           (<["positioning" := PStr "bullish"]> {["weekly_change" := PInt 3]})
           {["long_pct" := PStr "abc"]} (PStr "abc")); reflexivity.
Defined.

(** ** Ranking *)

Section stable_sort.
Implicit Types (x : Z * dict) (l : list (Z * dict)).

Lemma insert_by_key_perm x l : insert_by_key x l ≡ₚ x :: l.
Proof.
  induction l as [|y l IH]; [done|]. cbn [insert_by_key].
  destruct (y.1 <? x.1); [|done]. by rewrite IH, Permutation_swap.
Qed.

Lemma insert_by_key_sorted x l :
  StronglySorted (λ a b, a.1 ≤ b.1) l →
  StronglySorted (λ a b, a.1 ≤ b.1) (insert_by_key x l).
Proof.
  induction 1 as [|y l Hl IH Hy]; cbn [insert_by_key].
  { repeat constructor. }
  destruct (Z.ltb_spec y.1 x.1) as [Hlt|Hge].
  - constructor; [done|]. rewrite insert_by_key_perm.
    constructor; [lia|done].
  - constructor; [by constructor|].
    constructor; [done|]. eapply Forall_impl; [done|]. cbn. lia.
Qed.

(** Elements of equal key keep their order: an inserted element stays in
    front of the elements of its key. *)
Lemma insert_by_key_filter (t : Z) x l :
  filter (λ a, a.1 = t) (insert_by_key x l) = filter (λ a, a.1 = t) (x :: l).
Proof.
  induction l as [|y l IH]; [done|]. cbn [insert_by_key].
  destruct (Z.ltb_spec y.1 x.1) as [Hlt|Hge]; [|done].
  rewrite (filter_cons _ y), IH, !filter_cons.
  repeat case_decide; try done; lia.
Qed.

Lemma stable_sort_perm l : stable_sort l ≡ₚ l.
Proof.
  induction l as [|x l IH]; [done|]. cbn [stable_sort foldr].
  rewrite insert_by_key_perm. by f_equiv.
Qed.

Lemma stable_sort_sorted l :
  StronglySorted (λ a b, a.1 ≤ b.1) (stable_sort l).
Proof.
  induction l as [|x l IH]; [constructor|].
  by apply insert_by_key_sorted.
Qed.

Lemma stable_sort_filter (t : Z) l :
  filter (λ a, a.1 = t) (stable_sort l) = filter (λ a, a.1 = t) l.
Proof.
  induction l as [|x l IH]; [done|]. cbn [stable_sort foldr].
  rewrite insert_by_key_filter, !filter_cons. fold (stable_sort l).
  by rewrite IH.
Qed.

Lemma strongly_sorted_reverse l :
  StronglySorted (λ a b, a.1 ≤ b.1) l →
  StronglySorted (λ a b, b.1 ≤ a.1) (reverse l).
Proof.
  induction 1 as [|y l Hl IH Hy]; [constructor|].
  rewrite reverse_cons.
  apply StronglySorted_app_2; [|done|repeat constructor].
  intros a b Ha ->%list_elem_of_singleton.
  rewrite elem_of_reverse in Ha. rewrite Forall_forall in Hy. by apply Hy.
Qed.

(** The sort with [reverse=True]: a permutation, in descending order of
    the keys, with the elements of equal key in their original order. *)
Lemma reverse_sort_spec l :
  let r := reverse (stable_sort (reverse l)) in
  r ≡ₚ l
  ∧ StronglySorted (λ a b, b.1 ≤ a.1) r
  ∧ ∀ t : Z, filter (λ a, a.1 = t) r = filter (λ a, a.1 = t) l.
Proof.
  cbn zeta. split; [|split].
  - by rewrite reverse_Permutation, stable_sort_perm, reverse_Permutation.
  - apply strongly_sorted_reverse, stable_sort_sorted.
  - intros t.
    by rewrite filter_reverse, stable_sort_filter, filter_reverse,
      reverse_involutive.
Qed.
End stable_sort.

Lemma keyed_fmap_snd (l : list (Z * dict)) :
  Forall (λ a, a.1 = total_score_of a.2) l → l = with_key <$> l.*2.
Proof.
  induction 1 as [|[k r] l Hk _ IH]; [done|].
  cbn [fst snd] in Hk. subst k. csimpl. f_equal. exact IH.
Qed.

Lemma with_key_sorted (m : list dict) :
  StronglySorted (λ a b : Z * dict, b.1 ≤ a.1) (with_key <$> m) →
  StronglySorted (λ r1 r2, total_score_of r2 ≤ total_score_of r1) m.
Proof.
  induction m as [|r m IH]; [constructor|].
  cbn [fmap list_fmap]. intros [Hhd Htl]%StronglySorted_cons.
  constructor; [by apply IH|].
  rewrite Forall_fmap in Hhd. exact Hhd.
Qed.

Lemma with_key_filter (t : Z) (m : list dict) :
  (filter (λ a : Z * dict, a.1 = t) (with_key <$> m)).*2
  = filter (λ r, total_score_of r = t) m.
Proof.
  induction m as [|r m IH]; [done|].
  cbn [fmap list_fmap]. rewrite !filter_cons. cbn [with_key fst].
  case_decide; cbn [fmap list_fmap snd]; by rewrite IH.
Qed.

Lemma decorate_with_key (items : list dict) :
  Forall (λ r, ∃ z, r !! "total_score" = Some (PInt z)) items →
  decorate items = Ok (with_key <$> items).
Proof.
  induction 1 as [|r items [z Hz] _ IH]; [done|].
  cbn [decorate]. unfold total_score_key. rewrite Hz. cbn [bind].
  rewrite IH. cbn [bind fmap list_fmap]. unfold with_key, total_score_of.
  by rewrite Hz.
Qed.

Lemma sort_by_total_score_reverse_spec (items : list dict) :
  Forall (λ r, ∃ z, r !! "total_score" = Some (PInt z)) items →
  ∃ ranked,
    sort_by_total_score_reverse items = Ok ranked
    ∧ ranked ≡ₚ items
    ∧ StronglySorted (λ r1 r2, total_score_of r2 ≤ total_score_of r1) ranked
    ∧ ∀ t : Z,
        filter (λ r, total_score_of r = t) ranked
        = filter (λ r, total_score_of r = t) items.
Proof.
  intros Hitems. unfold sort_by_total_score_reverse.
  rewrite (decorate_with_key items Hitems). cbn [bind].
  destruct (reverse_sort_spec (with_key <$> items)) as (Hperm & Hsort & Hfil).
  set (l := reverse (stable_sort (reverse (with_key <$> items)))) in *.
  assert (l = with_key <$> l.*2) as Hl.
  { apply keyed_fmap_snd. rewrite Hperm. by apply Forall_fmap, Forall_true. }
  assert ((with_key <$> items).*2 = items) as Hsnd.
  { rewrite <-list_fmap_compose. apply list_fmap_id. }
  eexists. split; [done|]. split; [|split].
  - by rewrite Hperm, Hsnd.
  - apply with_key_sorted. by rewrite <-Hl.
  - intros t. rewrite <-(with_key_filter t (l.*2)), <-Hl, Hfil.
    by rewrite with_key_filter.
Qed.

Lemma calculate_asset_score_total py now asset_data report :
  calculate_asset_score py now asset_data = Ok report →
  ∃ z, report !! "total_score" = Some (PInt z).
Proof.
  destruct (calculate_asset_score_cases py now asset_data)
    as [([[[t s] e] b] & _ & ->) | [(ex & _ & _ & ->) | (? & ? & _ & _ & ->)]];
    intros [= <-].
  - eexists. exact (proj1 (proj2 (score_report_fields _ _ _ _ _ _ _))).
  - eexists. exact (proj1 (proj2 (fallback_report_fields _ _))).
Qed.

(** When every call returns, the loop appends one report for each
    asset, in the order of the assets. *)
Lemma score_loop_spec py clock k assets acc :
  (∀ (i : nat) asset_data,
     assets !! i = Some asset_data →
     ∃ report,
       calculate_asset_score py (clock (k + i)%nat) asset_data = Ok report) →
  ∃ scored,
    score_loop py clock k assets acc = Ok (acc ++ scored)
    ∧ length scored = length assets
    ∧ ∀ (i : nat) asset_data,
        assets !! i = Some asset_data →
        ∃ report,
          scored !! i = Some report
          ∧ calculate_asset_score py (clock (k + i)%nat) asset_data
            = Ok report.
Proof.
  revert k acc. induction assets as [|a assets IH]; intros k acc Hret.
  - exists []. rewrite app_nil_r. by repeat split.
  - cbn [score_loop].
    destruct (Hret 0%nat a eq_refl) as [r Hr].
    rewrite Nat.add_0_r in Hr. rewrite Hr. cbn [bind].
    destruct (IH (S k) (acc ++ [r])) as (scored & -> & Hlen & Hall).
    { intros i asset_data Hi.
      destruct (Hret (S i) asset_data Hi) as [report Hreport].
      exists report. by rewrite Nat.add_succ_r in Hreport. }
    exists (r :: scored). split; [by rewrite <-app_assoc|].
    split; [by cbn; rewrite Hlen|].
    intros [|i] asset_data; cbn.
    + intros [= <-]. exists r. by rewrite Nat.add_0_r.
    + intros Hi. destruct (Hall i asset_data Hi) as (report & ? & ?).
      exists report. by rewrite Nat.add_succ_r.
Qed.

(** The loop appends the report of each asset, in the order of the
    assets, as long as every call returns. *)
Lemma score_loop_scored py clock k assets acc scored :
  length scored = length assets →
  (∀ (i : nat) asset_data,
     assets !! i = Some asset_data →
     ∃ report,
       scored !! i = Some report
       ∧ calculate_asset_score py (clock (k + i)%nat) asset_data = Ok report) →
  score_loop py clock k assets acc = Ok (acc ++ scored).
Proof.
  revert k acc scored.
  induction assets as [|a assets IH]; intros k acc scored Hlen Hall.
  - destruct scored; [|done]. cbn. by rewrite app_nil_r.
  - destruct scored as [|r scored]; [done|]. cbn [score_loop].
    destruct (Hall 0%nat a eq_refl) as (r' & [= <-] & Hr).
    rewrite Nat.add_0_r in Hr. rewrite Hr. cbn [bind].
    rewrite (IH (S k) (acc ++ [r]) scored).
    + by rewrite <-app_assoc.
    + cbn in Hlen. lia.
    + intros i asset_data Hi.
      destruct (Hall (S i) asset_data Hi) as (report & Hs & Hc).
      exists report. split; [exact Hs|]. by rewrite Nat.add_succ_r in Hc.
Qed.

(** The loop stops at the first call that raises. *)
Lemma score_loop_raises py clock k assets acc (j : nat) asset_data e :
  assets !! j = Some asset_data →
  calculate_asset_score py (clock (k + j)%nat) asset_data = Raise e →
  (∀ (i : nat) a,
     (i < j)%nat → assets !! i = Some a →
     ∃ report, calculate_asset_score py (clock (k + i)%nat) a = Ok report) →
  score_loop py clock k assets acc = Raise e.
Proof.
  revert k acc j. induction assets as [|a assets IH]; intros k acc j Hj He Hlt.
  - done.
  - cbn [score_loop]. destruct j as [|j].
    + injection Hj as ->. rewrite Nat.add_0_r in He. by rewrite He.
    + destruct (Hlt 0%nat a ltac:(lia) eq_refl) as [r Hr].
      rewrite Nat.add_0_r in Hr. rewrite Hr. cbn [bind].
      apply (IH (S k) _ j); [exact Hj| by rewrite Nat.add_succ_comm|].
      intros i a' Hi Ha'.
      destruct (Hlt (S i) a' ltac:(lia) Ha') as [r' Hr'].
      exists r'. by rewrite Nat.add_succ_comm.
Qed.

Lemma scored_totals py clock assets scored :
  length scored = length assets →
  (∀ (i : nat) asset_data,
     assets !! i = Some asset_data →
     ∃ report,
       scored !! i = Some report
       ∧ calculate_asset_score py (clock i) asset_data = Ok report) →
  Forall (λ r, ∃ z, r !! "total_score" = Some (PInt z)) scored.
Proof.
  intros Hlen Hall. apply Forall_forall. intros r [i Hi]%list_elem_of_lookup.
  destruct (lookup_lt_is_Some_2 assets i) as [a Ha].
  { rewrite <-Hlen. by eapply lookup_lt_Some. }
  destruct (Hall i a Ha) as (r' & Hr' & Hcalc).
  assert (r' = r) as -> by congruence.
  by eapply calculate_asset_score_total.
Qed.

Lemma rank_assets_spec py clock assets :
  (∀ (i : nat) asset_data,
     assets !! i = Some asset_data →
     ∃ report, calculate_asset_score py (clock i) asset_data = Ok report) →
  ∃ scored ranked,
    length scored = length assets
    ∧ (∀ (i : nat) asset_data,
         assets !! i = Some asset_data →
         ∃ report,
           scored !! i = Some report
           ∧ calculate_asset_score py (clock i) asset_data = Ok report)
    ∧ rank_assets py clock assets = Ok ranked
    ∧ ranked ≡ₚ scored
    ∧ StronglySorted (λ r1 r2, total_score_of r2 ≤ total_score_of r1) ranked
    ∧ ∀ t : Z,
        filter (λ r, total_score_of r = t) ranked
        = filter (λ r, total_score_of r = t) scored.
Proof.
  intros Hret.
  destruct (score_loop_spec py clock 0 assets [] Hret)
    as (scored & Hloop & Hlen & Hall).
  destruct (sort_by_total_score_reverse_spec scored
              (scored_totals py clock assets scored Hlen Hall))
    as (ranked & Hsort & Hperm & Hsorted & Hstable).
  exists scored, ranked. split; [done|]. split; [done|].
  split; [|done].
  unfold rank_assets. rewrite Hloop. cbn [bind app]. exact Hsort.
Qed.

(** The reports of the three assets, as [calculate_asset_score] returns
    them at the times of [sample_clock]. *)
Lemma sample_scored :
  let scored :=
    [score_report (sample_clock 0) (PStr "C") asset_C (3, 2, 0, 0);
     score_report (sample_clock 1) (PStr "A") asset_A (0, 0, 5, 0);
     score_report (sample_clock 2) (PStr "B") asset_B (0, -1, 0, 0)] in
  length scored = length [asset_C; asset_A; asset_B]
  ∧ (∀ (i : nat) asset_data,
       [asset_C; asset_A; asset_B] !! i = Some asset_data →
       ∃ report,
         scored !! i = Some report
         ∧ calculate_asset_score cpython (sample_clock i) asset_data
           = Ok report)
  ∧ StronglySorted (λ r1 r2, total_score_of r2 ≤ total_score_of r1) scored.
Proof.
  cbn zeta. split; [reflexivity|]. split.
  - intros [|[|[|i]]] asset_data; intros [= <-]; eexists;
      (split; [reflexivity|]).
    + apply (calculate_asset_score_ok cpython _ asset_C (3, 2, 0, 0)).
      vm_compute; reflexivity.
    + apply (calculate_asset_score_ok cpython _ asset_A (0, 0, 5, 0)).
      vm_compute; reflexivity.
    + apply (calculate_asset_score_ok cpython _ asset_B (0, -1, 0, 0)).
      vm_compute; reflexivity.
  - repeat constructor; apply Z.leb_le; vm_compute; reflexivity.
Qed.

(** C9. [rank_assets] scores every observation and, every call having
    returned its report, returns the reports in descending order of the
    total, reports of equal total keeping the order of the input; the
    call returns its report for every observation whose symbol is a
    string or is absent; totals 5, 5, -1 given in the order C, A, B come
    back in the order C, A, B. *)
Theorem rank_assets_sorted_stable :
  (∀ py clock assets,
     (∀ (i : nat) asset_data,
        assets !! i = Some asset_data →
        ∃ report,
          calculate_asset_score py (clock i) asset_data = Ok report) →
     ∃ scored ranked,
       length scored = length assets
       ∧ (∀ (i : nat) asset_data,
            assets !! i = Some asset_data →
            ∃ report,
              scored !! i = Some report
              ∧ calculate_asset_score py (clock i) asset_data = Ok report)
       ∧ rank_assets py clock assets = Ok ranked
       ∧ ranked ≡ₚ scored
       ∧ StronglySorted
           (λ r1 r2, total_score_of r2 ≤ total_score_of r1) ranked
       ∧ ∀ t : Z,
           filter (λ r, total_score_of r = t) ranked
           = filter (λ r, total_score_of r = t) scored)
  ∧ (∀ py now (asset_data : dict),
       str_or_absent (asset_data !! "symbol") = true →
       ∃ report, calculate_asset_score py now asset_data = Ok report)
  ∧ summaries (rank_assets cpython sample_clock [asset_C; asset_A; asset_B])
    = Ok [(PStr "C", 5); (PStr "A", 5); (PStr "B", -1)]
  ∧ summaries (rank_assets cpython sample_clock [asset_A; asset_C; asset_B])
    = Ok [(PStr "A", 5); (PStr "C", 5); (PStr "B", -1)].
Proof.
  split; [exact rank_assets_spec|]. split.
  - intros py now asset_data Hsym.
    apply calculate_asset_score_returns. right.
    by apply string_symbol_formats.
  - split; vm_compute; reflexivity.
Qed.

Lemma rank_assets_sorted_stable_witness :
  ∃ scored ranked,
    scored !! 1%nat
    = Some (score_report (sample_clock 1) (PStr "A") asset_A (0, 0, 5, 0))
    ∧ rank_assets cpython sample_clock [asset_C; asset_A; asset_B]
      = Ok ranked
    ∧ ranked ≡ₚ scored
    ∧ StronglySorted
        (λ r1 r2, total_score_of r2 ≤ total_score_of r1) ranked.
Proof.
  destruct (proj1 rank_assets_sorted_stable cpython sample_clock
              [asset_C; asset_A; asset_B])
    as (scored & ranked & _ & Hall & Hrank & Hperm & Hsorted & _).
  { intros [|[|[|i]]] asset_data; intros [= <-];
      apply (proj1 (proj2 rank_assets_sorted_stable)); reflexivity. }
  exists scored, ranked.
  split; [|split; [exact Hrank|split; [exact Hperm|exact Hsorted]]].
  destruct (Hall 1%nat asset_A eq_refl) as (report & Hlookup & Hreport).
  rewrite Hlookup. f_equal.
  assert (sub_scores asset_A = Ok (0, 0, 5, 0)) as Hsc
    by (vm_compute; reflexivity).
  rewrite (calculate_asset_score_ok cpython _ _ _ Hsc) in Hreport.
  injection Hreport as <-. reflexivity.
Defined.

(** When the scoring raises and the symbol can be formatted, the report
    is the zeroed one: the symbol, zero scores, the Neutral bias and the
    error text, without the seasonality score and the breakdown. *)
Lemma exception_gives_fallback_report py now asset_data e :
  sub_scores asset_data = Raise e →
  format_value py (dict_get asset_data "symbol" (PStr "UNKNOWN")) = Ok tt →
  ∃ report,
    calculate_asset_score py now asset_data = Ok report
    ∧ report !! "symbol"
      = Some (dict_get asset_data "symbol" (PStr "UNKNOWN"))
    ∧ report !! "total_score" = Some (PInt 0)
    ∧ report !! "technical_score" = Some (PInt 0)
    ∧ report !! "sentiment_score" = Some (PInt 0)
    ∧ report !! "eco_score" = Some (PInt 0)
    ∧ report !! "bias" = Some (PStr "Neutral")
    ∧ report !! "error" = Some (PStr (exn_str e))
    ∧ report !! "seasonality_score" = None
    ∧ report !! "breakdown" = None
    ∧ dom report
      = ({["symbol"; "total_score"; "technical_score"; "sentiment_score";
          "eco_score"; "bias"; "error"]} : gset string).
Proof.
  intros He Hf.
  rewrite (calculate_asset_score_raise py now asset_data e He Hf).
  eexists. split; [reflexivity|].
  destruct (fallback_report_fields
              (dict_get asset_data "symbol" (PStr "UNKNOWN")) e)
    as (? & ? & ? & ? & ? & ? & ? & ? & ? & _).
  repeat (split; [assumption|]). apply fallback_report_dom.
Qed.

(** C10. A scoring that raises ends in the zeroed report only when the
    message for the log can be formatted; otherwise the exception of the
    formatting leaves [calculate_asset_score]. With a technical part that
    is null the scoring raises, and with a symbol of 5001 digits the
    message cannot be formatted under the default digit limit, so the
    [ValueError] of the handler leaves [calculate_asset_score], and
    [rank_assets] with it, where a zeroed report was to be returned. *)
Theorem handler_raises_on_unprintable_symbol :
  (∀ py now asset_data e,
     sub_scores asset_data = Raise e →
     calculate_asset_score py now asset_data
     = match
         format_value py (dict_get asset_data "symbol" (PStr "UNKNOWN"))
       with
       | Ok _ =>
           Ok (fallback_report
                 (dict_get asset_data "symbol" (PStr "UNKNOWN")) e)
       | Raise e' => Raise e'
       end)
  ∧ sub_scores unprintable_asset = Raise (no_attribute PNone "get")
  ∧ calculate_asset_score cpython "2026-01-05T09:30:00" unprintable_asset
    = Raise digit_limit_error
  ∧ rank_assets cpython sample_clock [asset_B; unprintable_asset]
    = Raise digit_limit_error.
Proof.
  assert (sub_scores unprintable_asset = Raise (no_attribute PNone "get"))
    as Hsc by (vm_compute; reflexivity).
  assert (∀ now,
            calculate_asset_score cpython now unprintable_asset
            = Raise digit_limit_error) as Hcalc.
  { intros now.
    apply (calculate_asset_score_handler_raises cpython now _ _ _ Hsc).
    vm_compute; reflexivity. }
  split; [|split; [exact Hsc|split; [apply Hcalc|]]].
  - intros py now asset_data e He.
    destruct (format_value py (dict_get asset_data "symbol" (PStr "UNKNOWN")))
      as [[]|e'] eqn:Hf.
    + exact (calculate_asset_score_raise py now asset_data e He Hf).
    + exact (calculate_asset_score_handler_raises py now asset_data e e'
               He Hf).
  - unfold rank_assets.
    rewrite (score_loop_raises cpython sample_clock 0
               [asset_B; unprintable_asset] [] 1 unprintable_asset _
               eq_refl (Hcalc _)); [reflexivity|].
    intros [|i] a Hi; [|lia]. intros [= <-].
    eexists. apply (calculate_asset_score_ok cpython _ asset_B (0, -1, 0, 0)).
    vm_compute; reflexivity.
Qed.

Lemma handler_raises_on_unprintable_symbol_witness :
  sub_scores unprintable_asset = Raise (no_attribute PNone "get")
  ∧ format_value cpython
      (dict_get unprintable_asset "symbol" (PStr "UNKNOWN"))
    = Raise digit_limit_error
  ∧ calculate_asset_score cpython "2026-01-05T09:30:01" unprintable_asset
    = Raise digit_limit_error.
Proof.
  assert (sub_scores unprintable_asset = Raise (no_attribute PNone "get"))
    as Hsc by (vm_compute; reflexivity).
  assert (format_value cpython
            (dict_get unprintable_asset "symbol" (PStr "UNKNOWN"))
          = Raise digit_limit_error) as Hf by (vm_compute; reflexivity).
  split; [exact Hsc|]. split; [exact Hf|].
  rewrite (proj1 handler_raises_on_unprintable_symbol cpython
             "2026-01-05T09:30:01" unprintable_asset _ Hsc).
  rewrite Hf. reflexivity.
Defined.

(** ** Determinism *)

(** The clock only reaches the timestamp field. *)
Lemma score_report_timestamp now now' symbol asset_data scores :
  delete "timestamp" (score_report now symbol asset_data scores)
  = delete "timestamp" (score_report now' symbol asset_data scores).
Proof.
  destruct scores as [[[t s] e] b]. unfold score_report.
  apply map_eq. intros k.
  destruct (decide (k = "timestamp")) as [->|Hk].
  { by rewrite !lookup_delete_eq. }
  rewrite !lookup_delete_ne by done.
  rewrite !lookup_insert. repeat case_decide; congruence.
Qed.

Lemma calculate_asset_score_clock py now1 now2 asset_data scores :
  sub_scores asset_data = Ok scores → now1 ≠ now2 →
  calculate_asset_score py now1 asset_data
  ≠ calculate_asset_score py now2 asset_data.
Proof.
  intros H Hne. rewrite !(calculate_asset_score_ok _ _ _ _ H).
  destruct scores as [[[t s] e] b]. intros Heq.
  assert (Some (PStr now1) = Some (PStr now2)) as Hts; [|congruence].
  rewrite <-(proj1 (proj2 (proj2 (proj2 (proj2 (proj2 (proj2 (proj2
    (score_report_fields now1 (dict_get asset_data "symbol" (PStr "UNKNOWN"))
       asset_data t s e b))))))))).
  rewrite <-(proj1 (proj2 (proj2 (proj2 (proj2 (proj2 (proj2 (proj2
    (score_report_fields now2 (dict_get asset_data "symbol" (PStr "UNKNOWN"))
       asset_data t s e b))))))))).
  congruence.
Qed.

(** C8, as the specification states it, fails: the report holds the time
    of the call, so two calls on one observation at different times
    return different reports. *)
Lemma report_depends_on_clock :
  calculate_asset_score cpython "2026-01-05T09:30:00" sample_asset
  ≠ calculate_asset_score cpython "2026-01-05T09:30:01" sample_asset.
Proof.
  apply (calculate_asset_score_clock _ _ _ _ (2, 2, 2, 2)).
  - vm_compute; reflexivity.
  - discriminate.
Qed.

(** C8, amended. When a call on an observation returns a report, a call
    on the same observation at any other time returns a report that
    agrees with it on every field but the timestamp, which is the time of
    each call; the scores, the bias and the breakdown depend on the
    observation only, and the report of a failed scoring, which has no
    timestamp, does not depend on the time at all. *)
Theorem report_deterministic_up_to_timestamp py now1 now2 asset_data report1 :
  calculate_asset_score py now1 asset_data = Ok report1 →
  ∃ report2,
    calculate_asset_score py now2 asset_data = Ok report2
    ∧ delete "timestamp" report1 = delete "timestamp" report2
    ∧ ((report1 !! "timestamp" = Some (PStr now1)
        ∧ report2 !! "timestamp" = Some (PStr now2))
       ∨ (report1 !! "timestamp" = None ∧ report1 = report2)).
Proof.
  destruct (sub_scores asset_data) as [[[[t s] e] b]|ex] eqn:Hsc.
  - rewrite !(calculate_asset_score_ok _ _ _ _ Hsc). intros [= <-].
    eexists. split; [reflexivity|].
    split; [exact (score_report_timestamp now1 now2 _ asset_data
                     (t, s, e, b))|]. left.
    split; [by destruct (score_report_fields now1
                          (dict_get asset_data "symbol" (PStr "UNKNOWN"))
                          asset_data t s e b)
                 as (_ & _ & _ & _ & _ & _ & _ & ? & _)
           |by destruct (score_report_fields now2
                          (dict_get asset_data "symbol" (PStr "UNKNOWN"))
                          asset_data t s e b)
                 as (_ & _ & _ & _ & _ & _ & _ & ? & _)].
  - destruct (format_value py (dict_get asset_data "symbol" (PStr "UNKNOWN")))
      as [[]|e'] eqn:Hf.
    + rewrite !(calculate_asset_score_raise _ _ _ _ Hsc Hf). intros [= <-].
      eexists. split; [reflexivity|].
      split; [reflexivity|]. right. split; [|reflexivity].
      by destruct (fallback_report_fields
                     (dict_get asset_data "symbol" (PStr "UNKNOWN")) ex)
        as (_ & _ & _ & _ & _ & _ & _ & _ & _ & ?).
    + by rewrite (calculate_asset_score_handler_raises _ _ _ _ _ Hsc Hf).
Qed.

Lemma report_deterministic_up_to_timestamp_witness :
  ∃ report2,
    calculate_asset_score cpython "2026-01-05T09:30:01" sample_asset
    = Ok report2
    ∧ delete "timestamp"
        (score_report "2026-01-05T09:30:00"
           (dict_get sample_asset "symbol" (PStr "UNKNOWN")) sample_asset
           (2, 2, 2, 2))
      = delete "timestamp" report2
    ∧ report2 !! "timestamp" = Some (PStr "2026-01-05T09:30:01").
Proof.
  assert (sub_scores sample_asset = Ok (2, 2, 2, 2)) as Hsc
    by (vm_compute; reflexivity).
  destruct (report_deterministic_up_to_timestamp cpython
              "2026-01-05T09:30:00" "2026-01-05T09:30:01" sample_asset _
              (calculate_asset_score_ok cpython _ _ _ Hsc))
    as (report2 & H2 & Hdel & [[_ Hts]|[Hts _]]).
  - exists report2. split; [exact H2|]. split; [exact Hdel|exact Hts].
  - exfalso.
    destruct (score_report_fields "2026-01-05T09:30:00"
                (dict_get sample_asset "symbol" (PStr "UNKNOWN"))
                sample_asset 2 2 2 2)
      as (_ & _ & _ & _ & _ & _ & _ & Hts' & _).
    congruence.
Defined.

(** ** Further properties of the scoring engine *)

(** X1. The label is always one of the five labels, a larger total never
    gets a more bearish label, and the ladder is symmetric: the label of
    [-t] mirrors the label of [t]. *)
Theorem determine_bias_monotone_symmetric :
  (∀ total,
     _determine_bias total
     ∈ ["Very Bearish"; "Bearish"; "Neutral"; "Bullish"; "Very Bullish"])
  ∧ (∀ a b, a ≤ b →
       bias_rank (_determine_bias a) ≤ bias_rank (_determine_bias b))
  ∧ (∀ total,
       bias_rank (_determine_bias (- total))
       = - bias_rank (_determine_bias total)).
Proof.
  split; [|split].
  - intros total. rewrite determine_bias_intervals.
    repeat case_decide; set_solver.
  - intros a b Hab. rewrite !determine_bias_intervals.
    repeat case_decide; try lia; by vm_compute.
  - intros total. rewrite !determine_bias_intervals.
    repeat case_decide; try lia; by vm_compute.
Qed.

Lemma determine_bias_monotone_symmetric_witness :
  7 ≤ 8 ∧ bias_rank (_determine_bias 7) ≤ bias_rank (_determine_bias 8).
Proof.
  split; [lia|].
  apply (proj1 (proj2 determine_bias_monotone_symmetric) 7 8). lia.
Defined.

(** X2. Whenever a report is returned, of a scoring that succeeded or
    of one that failed, its bias is the label of its total score, and
    the total is in [-12, 12]. *)
Theorem report_bias_matches_total py now asset_data report :
  calculate_asset_score py now asset_data = Ok report →
  ∃ total,
    report !! "total_score" = Some (PInt total)
    ∧ report !! "bias" = Some (PStr (_determine_bias total))
    ∧ -12 ≤ total ≤ 12.
Proof.
  destruct (calculate_asset_score_cases py now asset_data)
    as [([[[t s] e] b] & Hsc & ->) | [(ex & _ & _ & ->) | (? & ? & _ & _ & ->)]];
    intros [= <-].
  - destruct (sub_scores_range _ _ _ _ _ Hsc) as (Ht & Hs & He & Hb).
    destruct (score_report_fields now
                (dict_get asset_data "symbol" (PStr "UNKNOWN")) asset_data
                t s e b) as (_ & Htot & _ & _ & _ & _ & Hbias & _).
    exists (t + s + e + b).
    split; [exact Htot|]. split; [exact Hbias|]. lia.
  - destruct (fallback_report_fields
                (dict_get asset_data "symbol" (PStr "UNKNOWN")) ex)
      as (_ & Htot & _ & _ & _ & Hbias & _).
    exists 0.
    split; [exact Htot|]. split; [exact Hbias|]. lia.
Qed.

Lemma report_bias_matches_total_witness :
  ∃ total,
    fallback_report (dict_get bad_long_pct_asset "symbol" (PStr "UNKNOWN"))
      (not_supported ">" (PStr "abc") (NInt 60))
      !! "total_score" = Some (PInt total)
    ∧ fallback_report (dict_get bad_long_pct_asset "symbol" (PStr "UNKNOWN"))
        (not_supported ">" (PStr "abc") (NInt 60))
        !! "bias" = Some (PStr (_determine_bias total)).
Proof.
  assert (sub_scores bad_long_pct_asset
          = Raise (not_supported ">" (PStr "abc") (NInt 60))) as Hsc
    by (vm_compute; reflexivity).
  destruct (report_bias_matches_total cpython "2026-01-05T09:30:00"
              bad_long_pct_asset _
              (calculate_asset_score_raise cpython _ _ _ Hsc eq_refl))
    as (total & Htot & Hbias & _).
  exists total. split; [exact Htot|exact Hbias].
Defined.

Lemma sma_contribution_cases o :
  sma_contribution o = (1 # 4)%Q ∨ sma_contribution o = (- (1 # 4))%Q
  ∨ sma_contribution o = 0%Q.
Proof. destruct o as [[|[]| | | | |]|]; cbn; auto. Qed.

(** The score on exact rationals, by the trend. *)
Lemma technical_spec_by_trend (technical : dict) trend volatility :
  let s := technical_spec technical trend volatility in
  (String.eqb (lower trend) "bullish" = true → 1 ≤ s ≤ 3)
  ∧ (String.eqb (lower trend) "bullish" = false →
     String.eqb (lower trend) "bearish" = true → -3 ≤ s ≤ -1)
  ∧ (String.eqb (lower trend) "bullish" = false →
     String.eqb (lower trend) "bearish" = false → -1 ≤ s ≤ 1).
Proof.
  cbn zeta.
  unfold technical_spec, technical_running_sum, damped, trend_contribution,
    sma_keys.
  cbn [fmap list_fmap Qsum foldr].
  destruct (sma_contribution_cases (technical !! "above_20_sma"))
    as [-> | [-> | ->]];
  destruct (sma_contribution_cases (technical !! "above_50_sma"))
    as [-> | [-> | ->]];
  destruct (sma_contribution_cases (technical !! "above_100_sma"))
    as [-> | [-> | ->]];
  destruct (sma_contribution_cases (technical !! "above_200_sma"))
    as [-> | [-> | ->]];
  destruct (String.eqb (lower trend) "bullish"),
    (String.eqb (lower trend) "bearish"),
    (String.eqb (lower volatility) "high");
  vm_compute; intuition congruence.
Qed.

(** X3. The trend decides the sign of the technical score: with a bullish
    trend the score is between 1 and 3 and with a bearish trend between -3
    and -1, whatever the moving averages and the volatility; with any
    other trend it is between -1 and 1. *)
Theorem trend_decides_sign (technical : dict) trend volatility :
  dict_get technical "trend" (PStr "neutral") = PStr trend →
  dict_get technical "volatility" (PStr "normal") = PStr volatility →
  ∃ s,
    _calculate_technical_score (PDict technical) = Ok s
    ∧ (lower trend = "bullish" → 1 ≤ s ≤ 3)
    ∧ (lower trend = "bearish" → -3 ≤ s ≤ -1)
    ∧ (lower trend ≠ "bullish" → lower trend ≠ "bearish" → -1 ≤ s ≤ 1).
Proof.
  intros Htrend Hvol.
  rewrite (technical_score_eq technical trend volatility Htrend Hvol).
  eexists. split; [reflexivity|].
  destruct (technical_spec_by_trend technical trend volatility)
    as (Hbull & Hbear & Hneut).
  split; [|split].
  - intros H. apply Hbull. by rewrite H.
  - intros H. apply Hbear; by rewrite H.
  - intros H1 H2. apply Hneut; by apply String.eqb_neq.
Qed.

Lemma trend_decides_sign_witness :
  ∃ s,
    _calculate_technical_score (PDict scenario_B) = Ok s
    ∧ (lower "Bullish" = "bullish" → 1 ≤ s ≤ 3)
    ∧ (lower "Bullish" = "bearish" → -3 ≤ s ≤ -1)
    ∧ (lower "Bullish" ≠ "bullish" → lower "Bullish" ≠ "bearish"
       → -1 ≤ s ≤ 1).
Proof.
  apply (trend_decides_sign scenario_B "Bullish" "High"); reflexivity.
Defined.

Lemma technical_spec_insert_volatility (technical : dict) v trend volatility :
  technical_spec (<["volatility" := v]> technical) trend volatility
  = technical_spec technical trend volatility.
Proof.
  unfold technical_spec, technical_running_sum, sma_keys.
  cbn [fmap list_fmap]. by rewrite !lookup_insert_ne.
Qed.

Lemma technical_spec_damping (technical : dict) trend v_high v_other :
  String.eqb (lower v_high) "high" = true →
  String.eqb (lower v_other) "high" = false →
  Z.abs (technical_spec technical trend v_high)
  ≤ Z.abs (technical_spec technical trend v_other)
  ∧ 0 ≤ technical_spec technical trend v_high
        * technical_spec technical trend v_other.
Proof.
  intros Hh Ho.
  unfold technical_spec, technical_running_sum, damped, trend_contribution,
    sma_keys.
  rewrite Hh, Ho. cbn [fmap list_fmap Qsum foldr].
  destruct (sma_contribution_cases (technical !! "above_20_sma"))
    as [-> | [-> | ->]];
  destruct (sma_contribution_cases (technical !! "above_50_sma"))
    as [-> | [-> | ->]];
  destruct (sma_contribution_cases (technical !! "above_100_sma"))
    as [-> | [-> | ->]];
  destruct (sma_contribution_cases (technical !! "above_200_sma"))
    as [-> | [-> | ->]];
  destruct (String.eqb (lower trend) "bullish"),
    (String.eqb (lower trend) "bearish");
  vm_compute; split; congruence.
Qed.

(** X4. High volatility never turns the sign of the technical score and
    never makes it larger in magnitude than it is under any other
    volatility. *)
Theorem high_volatility_damps (technical : dict) trend v_high v_other :
  dict_get technical "trend" (PStr "neutral") = PStr trend →
  lower v_high = "high" → lower v_other ≠ "high" →
  ∃ damped_score plain_score,
    _calculate_technical_score
      (PDict (<["volatility" := PStr v_high]> technical)) = Ok damped_score
    ∧ _calculate_technical_score
        (PDict (<["volatility" := PStr v_other]> technical)) = Ok plain_score
    ∧ Z.abs damped_score ≤ Z.abs plain_score
    ∧ 0 ≤ damped_score * plain_score.
Proof.
  intros Htrend Hh Ho.
  assert (∀ v, dict_get (<["volatility" := PStr v]> technical) "trend"
                 (PStr "neutral") = PStr trend) as Htr.
  { intros v. unfold dict_get in *. by rewrite lookup_insert_ne. }
  assert (∀ v, dict_get (<["volatility" := PStr v]> technical) "volatility"
                 (PStr "normal") = PStr v) as Hvol.
  { intros v. unfold dict_get. by rewrite lookup_insert_eq. }
  rewrite (technical_score_eq _ trend v_high (Htr _) (Hvol _)),
    (technical_score_eq _ trend v_other (Htr _) (Hvol _)),
    !technical_spec_insert_volatility.
  eexists _, _. split; [reflexivity|]. split; [reflexivity|].
  apply technical_spec_damping.
  - by rewrite Hh.
  - by apply String.eqb_neq.
Qed.

Lemma high_volatility_damps_witness :
  ∃ damped_score plain_score,
    _calculate_technical_score
      (PDict (<["volatility" := PStr "HIGH"]> scenario_A)) = Ok damped_score
    ∧ _calculate_technical_score
        (PDict (<["volatility" := PStr "low"]> scenario_A)) = Ok plain_score
    ∧ Z.abs damped_score ≤ Z.abs plain_score
    ∧ 0 ≤ damped_score * plain_score.
Proof.
  apply (high_volatility_damps scenario_A "Bullish" "HIGH" "low");
    [reflexivity|reflexivity|discriminate].
Defined.

(** X5. A technical part that is not a dict, or whose trend is present
    but not a string (a null, for example), makes the whole report the
    zeroed one, with the [AttributeError] text as its error, as long as
    the symbol can be formatted for the log. *)
Theorem malformed_technical_zeroes_report :
  (∀ py now asset_data v,
     asset_data !! "technical" = Some v → (∀ d, v ≠ PDict d) →
     format_value py (dict_get asset_data "symbol" (PStr "UNKNOWN")) = Ok tt →
     calculate_asset_score py now asset_data
     = Ok (fallback_report (dict_get asset_data "symbol" (PStr "UNKNOWN"))
             (no_attribute v "get")))
  ∧ (∀ py now asset_data (technical : dict) v,
       asset_data !! "technical" = Some (PDict technical) →
       technical !! "trend" = Some v → (∀ s, v ≠ PStr s) →
       format_value py (dict_get asset_data "symbol" (PStr "UNKNOWN"))
       = Ok tt →
       calculate_asset_score py now asset_data
       = Ok (fallback_report (dict_get asset_data "symbol" (PStr "UNKNOWN"))
               (no_attribute v "lower"))).
Proof.
  split.
  - intros py now asset_data v Hv Hnd Hf.
    apply calculate_asset_score_raise; [|exact Hf].
    unfold sub_scores, dict_get at 1. rewrite Hv. cbn [default from_option id].
    destruct v; try reflexivity. by destruct (Hnd d).
  - intros py now asset_data technical v Ht Hv Hns Hf.
    apply calculate_asset_score_raise; [|exact Hf].
    unfold sub_scores, dict_get at 1. rewrite Ht. cbn [default from_option id].
    unfold _calculate_technical_score. cbn [py_get bind].
    unfold dict_get at 1. rewrite Hv. cbn [default from_option id].
    destruct v; try reflexivity. by destruct (Hns s).
Qed.

Lemma malformed_technical_zeroes_report_witness :
  calculate_asset_score cpython "2026-01-05T09:30:00"
    (<["technical" := PDict {["trend" := PNone]}]> sample_asset)
  = Ok (fallback_report
          (dict_get (<["technical" := PDict {["trend" := PNone]}]> sample_asset)
             "symbol" (PStr "UNKNOWN"))
          (no_attribute PNone "lower")).
Proof.
  apply (proj2 malformed_technical_zeroes_report cpython "2026-01-05T09:30:00"
           (<["technical" := PDict {["trend" := PNone]}]> sample_asset)
           {["trend" := PNone]} PNone);
    [reflexivity|reflexivity|discriminate|reflexivity].
Defined.

(** X6. Setting one metric of a well-typed economic dict to a strictly
    positive surprise never lowers the economic score, and raises it by 2
    at most. *)
Theorem beat_never_lowers_eco_score (economic : dict) key v a :
  valid_economic economic = true →
  as_num v = Some a → xsign (num_value a) = 1 →
  ∃ before after,
    _calculate_eco_score (PDict economic) = Ok before
    ∧ _calculate_eco_score (PDict (<[key := v]> economic)) = Ok after
    ∧ before ≤ after ≤ before + 2.
Proof.
  intros Hok Ha Hsign.
  assert (valid_economic (<[key := v]> economic) = true) as Hok'.
  { unfold valid_economic in *. rewrite forallb_forall in *.
    intros item Hitem. destruct (decide (key = item.2)) as [->|Hne].
    - rewrite lookup_insert_eq. destruct v; try done; cbn in Ha; done.
    - rewrite lookup_insert_ne by done. by apply Hok. }
  rewrite (eco_score_votes _ Hok), (eco_score_votes _ Hok').
  eexists _, _. split; [reflexivity|]. split; [reflexivity|].
  unfold eco_spec, clamp, eco_votes.
  assert (∀ keys : list (string * string),
            NoDup keys.*2 →
            let f (d : dict) :=
              Zsum ((λ item : string * string, surprise_vote (d !! item.2))
                      <$> keys) in
            f economic ≤ f (<[key := v]> economic) ≤ f economic + 2) as Hsum.
  { clear Hok Hok'. intros keys.
    induction keys as [|[m k] keys IH]; cbn zeta; [cbn; lia|].
    intros [Hk Hnd]%NoDup_cons. specialize (IH Hnd). cbn zeta in IH.
    cbn [fmap list_fmap Zsum foldr snd].
    destruct (decide (key = k)) as [->|Hne].
    - rewrite lookup_insert_eq. cbn [surprise_vote]. rewrite Ha, Hsign.
      assert (Zsum ((λ item : string * string,
                 surprise_vote (<[k:=v]> economic !! item.2)) <$> keys)
              = Zsum ((λ item : string * string,
                 surprise_vote (economic !! item.2)) <$> keys)) as Heq.
      { f_equal. apply list_fmap_ext. intros i item Hitem.
        rewrite lookup_insert_ne; [done|].
        intros ->. apply Hk. apply list_elem_of_fmap. exists item.
        split; [done|]. by eapply list_elem_of_lookup_2. }
      unfold Zsum in *. rewrite Heq.
      destruct (surprise_vote_range (economic !! k)) as [->|[->| ->]]; lia.
    - rewrite lookup_insert_ne by done. unfold Zsum in *. lia. }
  specialize (Hsum eco_metrics). cbn zeta in Hsum.
  assert (NoDup eco_metrics.*2) as Hnd.
  { apply (bool_decide_unpack _). by vm_compute. }
  specialize (Hsum Hnd). cbv beta in Hsum. lia.
Qed.

Lemma beat_never_lowers_eco_score_witness :
  ∃ before after,
    _calculate_eco_score (PDict scenario_D) = Ok before
    ∧ _calculate_eco_score (PDict (<["nfp_surprise" := PInt 1]> scenario_D))
      = Ok after
    ∧ before ≤ after ≤ before + 2.
Proof.
  apply (beat_never_lowers_eco_score scenario_D "nfp_surprise" (PInt 1)
           (NInt 1)); reflexivity.
Defined.

Lemma insert_by_key_front (x : Z * dict) (l : list (Z * dict)) :
  Forall (λ y, x.1 ≤ y.1) l → insert_by_key x l = x :: l.
Proof.
  destruct 1 as [|y l Hy _]; [done|]. cbn [insert_by_key].
  destruct (Z.ltb_spec y.1 x.1); [lia|done].
Qed.

(** An ascending list is left as it is. *)
Lemma stable_sort_ascending (l : list (Z * dict)) :
  StronglySorted (λ a b, a.1 ≤ b.1) l → stable_sort l = l.
Proof.
  induction 1 as [|x l _ IH Hx]; [done|].
  cbn [stable_sort foldr]. fold (stable_sort l).
  rewrite IH. by apply insert_by_key_front.
Qed.

Lemma descending_reverse (l : list (Z * dict)) :
  StronglySorted (λ a b, b.1 ≤ a.1) l →
  StronglySorted (λ a b, a.1 ≤ b.1) (reverse l).
Proof.
  induction 1 as [|y l Hl IH Hy]; [constructor|].
  rewrite reverse_cons.
  apply StronglySorted_app_2; [|done|repeat constructor].
  intros a b Ha ->%list_elem_of_singleton.
  rewrite elem_of_reverse in Ha. rewrite Forall_forall in Hy. by apply Hy.
Qed.

Lemma sort_descending_input (items : list dict) :
  Forall (λ r, ∃ z, r !! "total_score" = Some (PInt z)) items →
  StronglySorted (λ r1 r2, total_score_of r2 ≤ total_score_of r1) items →
  sort_by_total_score_reverse items = Ok items.
Proof.
  intros Hkeys Hsorted. unfold sort_by_total_score_reverse.
  rewrite (decorate_with_key items Hkeys). cbn [bind].
  rewrite stable_sort_ascending.
  - rewrite reverse_involutive, <-list_fmap_compose. f_equal.
    apply list_fmap_id.
  - apply descending_reverse.
    eapply (StronglySorted_fmap with_key); [|exact Hsorted]. done.
Qed.

(** X7. When the reports come out of the scoring already in descending
    order of the total, [rank_assets] returns them in the order of the
    input. *)
Theorem rank_assets_keeps_descending_input py clock assets scored :
  length scored = length assets →
  (∀ (i : nat) asset_data,
     assets !! i = Some asset_data →
     ∃ report,
       scored !! i = Some report
       ∧ calculate_asset_score py (clock i) asset_data = Ok report) →
  StronglySorted (λ r1 r2, total_score_of r2 ≤ total_score_of r1) scored →
  rank_assets py clock assets = Ok scored.
Proof.
  intros Hlen Hall Hsorted. unfold rank_assets.
  rewrite (score_loop_scored py clock 0 assets [] scored Hlen Hall).
  cbn [bind app].
  apply sort_descending_input; [|done].
  by apply (scored_totals py clock assets).
Qed.

Lemma rank_assets_keeps_descending_input_witness :
  rank_assets cpython sample_clock [asset_C; asset_A; asset_B]
  = Ok [score_report (sample_clock 0) (PStr "C") asset_C (3, 2, 0, 0);
        score_report (sample_clock 1) (PStr "A") asset_A (0, 0, 5, 0);
        score_report (sample_clock 2) (PStr "B") asset_B (0, -1, 0, 0)].
Proof.
  destruct sample_scored as (Hlen & Hall & Hsorted).
  exact (rank_assets_keeps_descending_input cpython sample_clock
           [asset_C; asset_A; asset_B] _ Hlen Hall Hsorted).
Defined.

(** ** Properties of the live bridge *)

Lemma above_sma_cases price sma :
  (above_sma price sma = PBool true ∧ sma_vote price sma = 1)
  ∨ (above_sma price sma = PBool false ∧ sma_vote price sma = -1)
  ∨ (above_sma price sma = PNone ∧ sma_vote price sma = 0).
Proof.
  unfold sma_vote.
  destruct sma as [[| | |]|]; cbn; try destruct (float_gt price _); auto.
Qed.

Lemma technical_input_eq q : technical_input q = Ok (live_technical q).
Proof. reflexivity. Qed.

Lemma live_technical_spec q :
  technical_spec (live_technical q)
    (if rising q then "bullish" else "bearish") "normal"
  = live_technical_score q.
Proof.
  unfold technical_spec, technical_running_sum, damped, trend_contribution,
    sma_keys, live_technical_score, sma_net.
  cbn [fmap list_fmap Qsum foldr].
  change (live_technical q !! "above_20_sma")
    with (Some (above_sma (current_price q) (sma_20 q))).
  change (live_technical q !! "above_50_sma")
    with (Some (above_sma (current_price q) (sma_50 q))).
  change (live_technical q !! "above_100_sma")
    with (Some (above_sma (current_price q) (sma_100 q))).
  change (live_technical q !! "above_200_sma")
    with (Some (above_sma (current_price q) (sma_200 q))).
  destruct (above_sma_cases (current_price q) (sma_20 q))
    as [[-> ->] | [[-> ->] | [-> ->]]];
  destruct (above_sma_cases (current_price q) (sma_50 q))
    as [[-> ->] | [[-> ->] | [-> ->]]];
  destruct (above_sma_cases (current_price q) (sma_100 q))
    as [[-> ->] | [[-> ->] | [-> ->]]];
  destruct (above_sma_cases (current_price q) (sma_200 q))
    as [[-> ->] | [[-> ->] | [-> ->]]];
  destruct (rising q); vm_compute; reflexivity.
Qed.

Lemma live_technical_score_eq q :
  _calculate_technical_score (PDict (live_technical q))
  = Ok (live_technical_score q).
Proof.
  rewrite (technical_score_eq (live_technical q)
             (if rising q then "bullish" else "bearish") "normal");
    [|reflexivity|reflexivity].
  by rewrite live_technical_spec.
Qed.

Lemma live_sub_scores name q :
  sub_scores (asset_input name (live_technical q))
  = Ok (live_technical_score q, 0, 0, 0).
Proof.
  unfold sub_scores.
  change (dict_get (asset_input name (live_technical q)) "technical" (PDict ∅))
    with (PDict (live_technical q)).
  rewrite live_technical_score_eq. cbn [bind].
  change (dict_get (asset_input name (live_technical q)) "cot" (PDict ∅))
    with (PDict (<["positioning" := PStr "neutral"]>
                   (<["weekly_change" := PInt 0]> ∅))).
  change (dict_get (asset_input name (live_technical q)) "retail" (PDict ∅))
    with (PDict (<["long_pct" := PInt 50]> ∅)).
  change (dict_get (asset_input name (live_technical q)) "economic" (PDict ∅))
    with (PDict ∅).
  change (dict_get (asset_input name (live_technical q)) "seasonality"
            (PDict ∅))
    with (PDict (<["current_month_avg_return" := PInt 0]> ∅)).
  assert (_calculate_sentiment_score
            (PDict (<["positioning" := PStr "neutral"]>
                      (<["weekly_change" := PInt 0]> ∅)))
            (PDict (<["long_pct" := PInt 50]> ∅)) = Ok 0) as ->
    by (vm_compute; reflexivity).
  assert (_calculate_eco_score (PDict ∅) = Ok 0) as ->
    by (vm_compute; reflexivity).
  assert (_calculate_seasonality_score
            (PDict (<["current_month_avg_return" := PInt 0]> ∅)) = Ok 0) as ->
    by (vm_compute; reflexivity).
  reflexivity.
Qed.

Lemma get_live_analysis_quote py now q ticker symbol_name :
  get_live_analysis py now (Quote q) ticker symbol_name
  = Ok (PDict (score_report now (PStr (live_symbol ticker symbol_name))
                 (asset_input (live_symbol ticker symbol_name)
                    (live_technical q))
                 (live_technical_score q, 0, 0, 0))).
Proof.
  unfold get_live_analysis. fold (live_symbol ticker symbol_name).
  rewrite technical_input_eq. cbn [bind].
  rewrite (calculate_asset_score_ok py now _ _ (live_sub_scores _ q)).
  reflexivity.
Qed.

Lemma live_report_field py now q ticker symbol_name key :
  report_field (get_live_analysis py now (Quote q) ticker symbol_name) key
  = score_report now (PStr (live_symbol ticker symbol_name))
      (asset_input (live_symbol ticker symbol_name) (live_technical q))
      (live_technical_score q, 0, 0, 0) !! key.
Proof. by rewrite get_live_analysis_quote. Qed.

Lemma sma_net_range q : -4 ≤ sma_net q ≤ 4.
Proof.
  unfold sma_net.
  destruct (above_sma_cases (current_price q) (sma_20 q))
    as [[_ ->] | [[_ ->] | [_ ->]]];
  destruct (above_sma_cases (current_price q) (sma_50 q))
    as [[_ ->] | [[_ ->] | [_ ->]]];
  destruct (above_sma_cases (current_price q) (sma_100 q))
    as [[_ ->] | [[_ ->] | [_ ->]]];
  destruct (above_sma_cases (current_price q) (sma_200 q))
    as [[_ ->] | [[_ ->] | [_ ->]]]; lia.
Qed.

(** X8. [get_live_analysis] never raises. On a fetch error it returns the
    error string. On a quote it returns a report that is never the zeroed
    one: its sentiment, economic and seasonality scores are 0 and its total
    is its technical score. *)
Theorem live_analysis_is_technical_only py now raw_data ticker symbol_name :
  ∃ v, get_live_analysis py now raw_data ticker symbol_name = Ok v
  ∧ match raw_data with
    | FetchError error => v = PStr ("Error fetching data: " +:+ error)
    | Quote q =>
        ∃ report t,
          v = PDict report
          ∧ report !! "error" = None
          ∧ report !! "technical_score" = Some (PInt t)
          ∧ report !! "sentiment_score" = Some (PInt 0)
          ∧ report !! "eco_score" = Some (PInt 0)
          ∧ report !! "seasonality_score" = Some (PInt 0)
          ∧ report !! "total_score" = Some (PInt t)
    end.
Proof.
  destruct raw_data as [error|q].
  - eexists. split; reflexivity.
  - rewrite get_live_analysis_quote. eexists. split; [reflexivity|].
    destruct (score_report_fields now (PStr (live_symbol ticker symbol_name))
                (asset_input (live_symbol ticker symbol_name)
                   (live_technical q))
                (live_technical_score q) 0 0 0)
      as (_ & Htot & Htech & Hsen & Heco & Hsea & _ & _ & Herr).
    eexists _, (live_technical_score q). split; [reflexivity|].
    split; [exact Herr|]. split; [exact Htech|]. split; [exact Hsen|].
    split; [exact Heco|]. split; [exact Hsea|].
    rewrite Htot. do 2 f_equal. lia.
Qed.

(** X9. The total of a live report is 3, 2 or 1 when the day's change is
    strictly positive and -3, -2 or -1 otherwise, by the net number of
    moving averages the price is above; it is never 0, and a change of
    exactly zero (or NaN) counts as a falling day. *)
Theorem live_score_follows_the_day py now q ticker symbol_name :
  let total :=
    report_field (get_live_analysis py now (Quote q) ticker symbol_name)
      "total_score" in
  total = Some (PInt (live_technical_score q))
  ∧ (rising q = true → 1 ≤ live_technical_score q ≤ 3)
  ∧ (rising q = false → -3 ≤ live_technical_score q ≤ -1)
  ∧ (∀ s, change_percent q = S754_zero s → rising q = false)
  ∧ (change_percent q = S754_nan → rising q = false).
Proof.
  cbn zeta. rewrite live_report_field.
  destruct (score_report_fields now (PStr (live_symbol ticker symbol_name))
              (asset_input (live_symbol ticker symbol_name)
                 (live_technical q))
              (live_technical_score q) 0 0 0) as (_ & -> & _).
  split; [do 2 f_equal; lia|].
  pose proof (sma_net_range q) as Hnet.
  unfold live_technical_score.
  split; [|split; [|split]].
  - intros ->. repeat case_match; lia.
  - intros ->. repeat case_match; lia.
  - intros s Hs. unfold rising. by rewrite Hs.
  - intros Hs. unfold rising. by rewrite Hs.
Qed.

Lemma live_score_follows_the_day_witness :
  let q := {| q_ticker := "GC=F"; current_price := f_1_01;
              change_percent := S754_zero false;
              sma_20 := Some f_1_0; sma_50 := Some f_1_0;
              sma_100 := Some f_1_0; sma_200 := None;
              volume := 1000; q_timestamp := "2026-01-05T09:30:00" |} in
  rising q = false ∧ -3 ≤ live_technical_score q ≤ -1.
Proof.
  intros q. split; [reflexivity|].
  apply (proj1 (proj2 (proj2
           (live_score_follows_the_day cpython "2026-01-05T09:30:00" q
              "GC=F" None)))).
  reflexivity.
Defined.

(** X10. The bias of a live report is Bullish when the day is rising and
    the price is above at least three more moving averages than it is not
    above, Bearish in the mirrored case, and Neutral otherwise; it is never
    Very Bullish or Very Bearish. *)
Theorem live_bias_is_never_strong py now q ticker symbol_name :
  report_field (get_live_analysis py now (Quote q) ticker symbol_name) "bias"
  = Some (PStr
           (if rising q then
              if 3 <=? sma_net q then "Bullish" else "Neutral"
            else
              if sma_net q <=? -3 then "Bearish" else "Neutral")).
Proof.
  rewrite live_report_field.
  destruct (score_report_fields now (PStr (live_symbol ticker symbol_name))
              (asset_input (live_symbol ticker symbol_name)
                 (live_technical q))
              (live_technical_score q) 0 0 0)
    as (_ & _ & _ & _ & _ & _ & -> & _).
  do 2 f_equal. unfold live_technical_score.
  destruct (rising q); repeat case_match; reflexivity.
Qed.

(** X11. The live report carries the name of the asset, or the ticker
    when the name is left out or empty, and the price read back through
    breakdown, technical, current_price is the fetched price. *)
Theorem live_report_echoes_symbol_and_price py now q ticker symbol_name :
  ∃ live,
    get_live_analysis py now (Quote q) ticker symbol_name = Ok live
    ∧ py_get live "symbol" PNone
      = Ok (PStr (match symbol_name with
                  | None | Some EmptyString => ticker
                  | Some name => name
                  end))
    ∧ displayed_price live = Ok (PFloat (current_price q)).
Proof.
  rewrite get_live_analysis_quote. eexists. split; [reflexivity|].
  split; reflexivity.
Qed.

Lemma build_metrics_agree (d1 d2 : dict) keys :
  (∀ item : string * string, item ∈ keys → d1 !! item.2 = d2 !! item.2) →
  build_metrics (PDict d1) keys = build_metrics (PDict d2) keys.
Proof.
  intros Hagree. rewrite !build_metrics_dict. f_equal.
  apply list_fmap_ext. intros i item Hitem. unfold dict_get.
  rewrite Hagree; [done|]. by eapply list_elem_of_lookup_2.
Qed.

(** X12. The economic score depends on the 14 keys it reads only, and
    the sentiment score reads nothing of the retail dict but long_pct:
    short_pct never changes it. *)
Theorem scores_ignore_unread_keys :
  (∀ economic1 economic2 : dict,
     (∀ item : string * string,
        item ∈ eco_metrics → economic1 !! item.2 = economic2 !! item.2) →
     _calculate_eco_score (PDict economic1)
     = _calculate_eco_score (PDict economic2))
  ∧ (∀ cot (retail1 retail2 : dict),
       retail1 !! "long_pct" = retail2 !! "long_pct" →
       _calculate_sentiment_score cot (PDict retail1)
       = _calculate_sentiment_score cot (PDict retail2))
  ∧ (∀ cot (retail : dict) v,
       _calculate_sentiment_score cot (PDict (<["short_pct" := v]> retail))
       = _calculate_sentiment_score cot (PDict retail)).
Proof.
  assert (∀ cot (retail1 retail2 : dict),
            retail1 !! "long_pct" = retail2 !! "long_pct" →
            _calculate_sentiment_score cot (PDict retail1)
            = _calculate_sentiment_score cot (PDict retail2)) as Hretail.
  { intros cot retail1 retail2 Hl. unfold _calculate_sentiment_score.
    cbn [py_get]. unfold dict_get. by rewrite Hl. }
  split; [|split].
  - intros economic1 economic2 Hagree. unfold _calculate_eco_score.
    by rewrite (build_metrics_agree economic1 economic2 eco_metrics Hagree).
  - exact Hretail.
  - intros cot retail v. apply Hretail. by rewrite lookup_insert_ne.
Qed.

Lemma scores_ignore_unread_keys_witness :
  _calculate_eco_score (PDict (<["gdp" := PStr "n/a"]> scenario_D))
  = _calculate_eco_score (PDict scenario_D).
Proof.
  apply (proj1 scores_ignore_unread_keys).
  intros item Hitem. unfold eco_metrics in Hitem.
  repeat (apply elem_of_cons in Hitem as [->|Hitem]; [reflexivity|]).
  by apply elem_of_nil in Hitem.
Defined.
